(** * LittleBugShop endpoint URL registry

    A shallow embedding of the two URL builders of the test framework:

    - the class based builder of [utils/urlBuilder.ts] ([UrlBuilder], one
      endpoint class per resource group, group objects created by getters),
      together with the [config] object of [config/api.config.ts];
    - the object-literal builder of
      [utils/urlBuilders/littleBugShopUrlBuilder.ts] and
      [utils/urlBuilders/enpoints/littleBugShopEnpoints.ts]
      ([createLittleBugShopEndpoints]).

    Strings are [string]; [process.env] is a finite map from names to
    strings; JavaScript template literals are written out as
    concatenations. *)

From Stdlib Require Import ZArith String Ascii List Bool Lia DecimalString.
From Stdlib Require HexadecimalString DecimalZ.
From Stdlib Require Import Permutation.
From stdpp Require Import base gmap strings.

Open Scope string_scope.

(** ** JavaScript values used by the builders *)

Module JS.

(** An optional string: a [string | undefined] value such as an omitted
    argument or [process.env.NAME]. *)
Definition truthy (v : option string) : bool :=
  match v with
  | Some s => negb (String.eqb s EmptyString)
  | None => false
  end.

(** [a || d] where [a : string | undefined] and [d : string]: the left
    operand when it is truthy (defined and not empty), else the right. *)
Definition or (a : option string) (d : string) : string :=
  match a with
  | Some s => if String.eqb s EmptyString then d else s
  | None => d
  end.

(** The text a template literal substitutes for [${a}] when [a] is a
    [string | undefined]. *)
Definition interpolate (a : option string) : string :=
  match a with
  | Some s => s
  | None => "undefined"
  end.

(** A path parameter, of TypeScript type [number | string].  [PNum n] is
    the integral number [n] (an identifier, of magnitude below 10^21, which
    JavaScript prints in plain decimal notation); [PStr s] is a string. *)
Inductive PathParam : Type :=
| PNum (n : Z)
| PStr (s : string).

(** The text substituted for [${p}]. *)
Definition ToString (p : PathParam) : string :=
  match p with
  | PNum n => NilZero.string_of_int (Z.to_int n)
  | PStr s => s
  end.

End JS.

Import JS.

(** ** The process and its configuration *)

(** [process.env]. *)
Abbreviation ProcessEnv := (gmap string string).

Module ApiConfig.

(** The [config] object of [api.config.ts]; of its fields the URL builder
    reads [baseUrl] only. *)
Record Config : Type := { baseUrl : string }.

Definition defaultBaseUrl : string := "http://localhost:5052".

(** The module initialiser: [baseUrl: process.env.BASE_URL ||
    'http://localhost:5052']. *)
Definition config (env : ProcessEnv) : Config :=
  {| baseUrl := JS.or (env !! "BASE_URL") defaultBaseUrl |}.

End ApiConfig.

(** The state a builder runs in: the environment of the process and the
    [config] object that [api.config.ts] exported when it was loaded.
    Computations are state passing functions. *)
Module Process.

Record World : Type := {
  env : ProcessEnv;
  config : ApiConfig.Config
}.

Definition Eff (A : Type) : Type := World -> A * World.

Definition ret {A} (a : A) : Eff A := fun w => (a, w).

Definition bind {A B} (m : Eff A) (k : A -> Eff B) : Eff B :=
  fun w => let (a, w') := m w in k a w'.

Definition getenv (name : string) : Eff (option string) :=
  fun w => (env w !! name, w).

Definition getconfig : Eff ApiConfig.Config :=
  fun w => (config w, w).

(** Loading [api.config.ts] stores the freshly computed [config]. *)
Definition load_config : Eff unit :=
  fun w => (tt, {| env := env w; config := ApiConfig.config (env w) |}).

(** A process started with environment [e], after its modules are
    loaded. *)
Definition boot (e : ProcessEnv) : World :=
  {| env := e; config := ApiConfig.config e |}.

End Process.

Notation "x <- m ;; k" := (Process.bind m (fun x => k))
  (at level 100, m at next level, right associativity).

(** ** The operations of the registry

    One constructor per leaf of the registry, applied to its path
    parameters: [Group_operation], with the nested [admin] and [addresses]
    objects spelled [Group_admin_operation].  [Cart_delete] is the leaf the
    object-literal builder calls [Cart.delete] and the class based builder
    calls [Cart.clear()]. *)

Inductive Call : Type :=
| Users_register
| Users_login
| Users_logout
| Users_getById (id : PathParam)
| Users_admin_users
| Users_admin_getUserById (id : PathParam)
| Users_admin_updateUser (id : PathParam)
| Users_admin_resetPassword (id : PathParam)
| Products_list
| Products_create
| Products_getById (id : PathParam)
| Products_update (id : PathParam)
| Products_delete (id : PathParam)
| Products_availability (id : PathParam)
| Products_stock (id : PathParam)
| Products_increaseStock (id : PathParam)
| Products_decreaseStock (id : PathParam)
| Cart_get
| Cart_delete
| Cart_addItem
| Cart_updateItem (itemId : PathParam)
| Cart_removeItem (itemId : PathParam)
| Cart_checkout
| Cart_applyCoupon
| Cart_removeCoupon
| Orders_create
| Orders_place
| Orders_list
| Orders_myOrders
| Orders_getById (id : PathParam)
| Orders_delete (id : PathParam)
| Orders_updateStatus (id : PathParam)
| Orders_pending
| Orders_cancel (id : PathParam)
| Profile_get
| Profile_update
| Profile_addresses_add
| Profile_addresses_update (id : PathParam)
| Profile_addresses_delete (id : PathParam)
| Profile_addresses_setDefault (id : PathParam)
| Profile_changePassword
| Reviews_create (productId : PathParam)
| Reviews_list (productId : PathParam)
| Reviews_getById (productId : PathParam) (reviewId : PathParam)
| Reviews_delete (productId : PathParam) (reviewId : PathParam)
| Reviews_myReview (productId : PathParam)
| Reviews_markHelpful (reviewId : PathParam)
| Reviews_moderate (productId : PathParam) (reviewId : PathParam)
| Reviews_admin_list
| Wishlist_get
| Wishlist_clear
| Wishlist_addItem (productId : PathParam)
| Wishlist_removeItem (productId : PathParam)
| Wishlist_checkItem (productId : PathParam)
| Wishlist_moveToCart
| Wishlist_count
| PaymentMethods_list
| PaymentMethods_add
| PaymentMethods_getById (id : PathParam)
| PaymentMethods_update (id : PathParam)
| PaymentMethods_delete (id : PathParam)
| PaymentMethods_setDefault (id : PathParam)
| Payments_process
| Payments_transactions
| Payments_getTransaction (id : PathParam)
| Payments_refund
| Payments_admin_transactions
| Payments_admin_statistics
| Coupons_validate (code : string)
| Coupons_admin_list
| Coupons_admin_create
| Coupons_admin_update (id : PathParam)
| Coupons_admin_delete (id : PathParam)
| Coupons_admin_usage (id : PathParam)
| Session_get.

Inductive Group : Type :=
| GUsers | GProducts | GCart | GOrders | GProfile | GReviews | GWishlist
| GPaymentMethods | GPayments | GCoupons | GSession.

(** The resource group an operation belongs to. *)
Definition group (c : Call) : Group :=
  match c with
  | Users_register
  | Users_login
  | Users_logout
  | Users_getById _
  | Users_admin_users
  | Users_admin_getUserById _
  | Users_admin_updateUser _
  | Users_admin_resetPassword _ => GUsers
  | Products_list
  | Products_create
  | Products_getById _
  | Products_update _
  | Products_delete _
  | Products_availability _
  | Products_stock _
  | Products_increaseStock _
  | Products_decreaseStock _ => GProducts
  | Cart_get
  | Cart_delete
  | Cart_addItem
  | Cart_updateItem _
  | Cart_removeItem _
  | Cart_checkout
  | Cart_applyCoupon
  | Cart_removeCoupon => GCart
  | Orders_create
  | Orders_place
  | Orders_list
  | Orders_myOrders
  | Orders_getById _
  | Orders_delete _
  | Orders_updateStatus _
  | Orders_pending
  | Orders_cancel _ => GOrders
  | Profile_get
  | Profile_update
  | Profile_addresses_add
  | Profile_addresses_update _
  | Profile_addresses_delete _
  | Profile_addresses_setDefault _
  | Profile_changePassword => GProfile
  | Reviews_create _
  | Reviews_list _
  | Reviews_getById _ _
  | Reviews_delete _ _
  | Reviews_myReview _
  | Reviews_markHelpful _
  | Reviews_moderate _ _
  | Reviews_admin_list => GReviews
  | Wishlist_get
  | Wishlist_clear
  | Wishlist_addItem _
  | Wishlist_removeItem _
  | Wishlist_checkItem _
  | Wishlist_moveToCart
  | Wishlist_count => GWishlist
  | PaymentMethods_list
  | PaymentMethods_add
  | PaymentMethods_getById _
  | PaymentMethods_update _
  | PaymentMethods_delete _
  | PaymentMethods_setDefault _ => GPaymentMethods
  | Payments_process
  | Payments_transactions
  | Payments_getTransaction _
  | Payments_refund
  | Payments_admin_transactions
  | Payments_admin_statistics => GPayments
  | Coupons_validate _
  | Coupons_admin_list
  | Coupons_admin_create
  | Coupons_admin_update _
  | Coupons_admin_delete _
  | Coupons_admin_usage _ => GCoupons
  | Session_get => GSession
  end.

(** The texts substituted for the path parameters, in declaration order. *)
Definition args (c : Call) : list string :=
  match c with
  | Users_getById id => [ToString id]
  | Users_admin_getUserById id => [ToString id]
  | Users_admin_updateUser id => [ToString id]
  | Users_admin_resetPassword id => [ToString id]
  | Products_getById id => [ToString id]
  | Products_update id => [ToString id]
  | Products_delete id => [ToString id]
  | Products_availability id => [ToString id]
  | Products_stock id => [ToString id]
  | Products_increaseStock id => [ToString id]
  | Products_decreaseStock id => [ToString id]
  | Cart_updateItem itemId => [ToString itemId]
  | Cart_removeItem itemId => [ToString itemId]
  | Orders_getById id => [ToString id]
  | Orders_delete id => [ToString id]
  | Orders_updateStatus id => [ToString id]
  | Orders_cancel id => [ToString id]
  | Profile_addresses_update id => [ToString id]
  | Profile_addresses_delete id => [ToString id]
  | Profile_addresses_setDefault id => [ToString id]
  | Reviews_create productId => [ToString productId]
  | Reviews_list productId => [ToString productId]
  | Reviews_getById productId reviewId => [ToString productId; ToString reviewId]
  | Reviews_delete productId reviewId => [ToString productId; ToString reviewId]
  | Reviews_myReview productId => [ToString productId]
  | Reviews_markHelpful reviewId => [ToString reviewId]
  | Reviews_moderate productId reviewId => [ToString productId; ToString reviewId]
  | Wishlist_addItem productId => [ToString productId]
  | Wishlist_removeItem productId => [ToString productId]
  | Wishlist_checkItem productId => [ToString productId]
  | PaymentMethods_getById id => [ToString id]
  | PaymentMethods_update id => [ToString id]
  | PaymentMethods_delete id => [ToString id]
  | PaymentMethods_setDefault id => [ToString id]
  | Payments_getTransaction id => [ToString id]
  | Coupons_validate code => [code]
  | Coupons_admin_update id => [ToString id]
  | Coupons_admin_delete id => [ToString id]
  | Coupons_admin_usage id => [ToString id]
  | _ => []
  end.

(** ** The class based builder ([utils/urlBuilder.ts]) *)

Module Lazy.

(** [class UsersEndpoints]. *)
Module UsersEndpoints.

Record t : Type := mk { basePath : string }.

Definition new (basePath0 : string) : t :=
  mk (basePath0 ++ "/Users").

Definition register (this : t) : string :=
  basePath this ++ "/register".

Definition login (this : t) : string :=
  basePath this ++ "/login".

Definition logout (this : t) : string :=
  basePath this ++ "/logout".

Definition getById (this : t) (id : PathParam) : string :=
  basePath this ++ "/" ++ ToString id.

Module admin.

Definition users (this : t) : string :=
  basePath this ++ "/admin/users".

Definition getUserById (this : t) (id : PathParam) : string :=
  basePath this ++ "/admin/users/" ++ ToString id.

Definition updateUser (this : t) (id : PathParam) : string :=
  basePath this ++ "/admin/users/" ++ ToString id.

Definition resetPassword (this : t) (id : PathParam) : string :=
  basePath this ++ "/admin/users/" ++ ToString id ++ "/reset-password".

End admin.

End UsersEndpoints.

(** [class ProductsEndpoints]. *)
Module ProductsEndpoints.

Record t : Type := mk { basePath : string }.

Definition new (basePath0 : string) : t :=
  mk (basePath0 ++ "/Products").

Definition list (this : t) : string :=
  basePath this.

Definition create (this : t) : string :=
  basePath this.

Definition getById (this : t) (id : PathParam) : string :=
  basePath this ++ "/" ++ ToString id.

Definition update (this : t) (id : PathParam) : string :=
  basePath this ++ "/" ++ ToString id.

Definition delete (this : t) (id : PathParam) : string :=
  basePath this ++ "/" ++ ToString id.

Definition availability (this : t) (id : PathParam) : string :=
  basePath this ++ "/" ++ ToString id ++ "/availability".

Definition stock (this : t) (id : PathParam) : string :=
  basePath this ++ "/" ++ ToString id ++ "/stock".

Definition increaseStock (this : t) (id : PathParam) : string :=
  basePath this ++ "/" ++ ToString id ++ "/stock/increase".

Definition decreaseStock (this : t) (id : PathParam) : string :=
  basePath this ++ "/" ++ ToString id ++ "/stock/decrease".

End ProductsEndpoints.

(** [class CartEndpoints]. *)
Module CartEndpoints.

Record t : Type := mk { basePath : string }.

Definition new (basePath0 : string) : t :=
  mk (basePath0 ++ "/Cart").

Definition get (this : t) : string :=
  basePath this.

Definition clear (this : t) : string :=
  basePath this.

Definition addItem (this : t) : string :=
  basePath this ++ "/items".

Definition updateItem (this : t) (itemId : PathParam) : string :=
  basePath this ++ "/items/" ++ ToString itemId.

Definition removeItem (this : t) (itemId : PathParam) : string :=
  basePath this ++ "/items/" ++ ToString itemId.

Definition checkout (this : t) : string :=
  basePath this ++ "/checkout".

Definition applyCoupon (this : t) : string :=
  basePath this ++ "/apply-coupon".

Definition removeCoupon (this : t) : string :=
  basePath this ++ "/remove-coupon".

End CartEndpoints.

(** [class OrdersEndpoints]. *)
Module OrdersEndpoints.

Record t : Type := mk { basePath : string }.

Definition new (basePath0 : string) : t :=
  mk (basePath0 ++ "/Orders").

Definition create (this : t) : string :=
  basePath this ++ "/create".

Definition place (this : t) : string :=
  basePath this ++ "/place".

Definition list (this : t) : string :=
  basePath this.

Definition myOrders (this : t) : string :=
  basePath this ++ "/my-orders".

Definition getById (this : t) (id : PathParam) : string :=
  basePath this ++ "/" ++ ToString id.

Definition delete (this : t) (id : PathParam) : string :=
  basePath this ++ "/" ++ ToString id.

Definition updateStatus (this : t) (id : PathParam) : string :=
  basePath this ++ "/" ++ ToString id ++ "/status".

Definition pending (this : t) : string :=
  basePath this ++ "/pending".

Definition cancel (this : t) (id : PathParam) : string :=
  basePath this ++ "/" ++ ToString id ++ "/cancel".

End OrdersEndpoints.

(** [class ProfileEndpoints]. *)
Module ProfileEndpoints.

Record t : Type := mk { basePath : string }.

Definition new (basePath0 : string) : t :=
  mk (basePath0 ++ "/users/profile").

Definition get (this : t) : string :=
  basePath this.

Definition update (this : t) : string :=
  basePath this.

Definition changePassword (this : t) : string :=
  basePath this ++ "/change-password".

Module addresses.

Definition add (this : t) : string :=
  basePath this ++ "/addresses".

Definition update (this : t) (id : PathParam) : string :=
  basePath this ++ "/addresses/" ++ ToString id.

Definition delete (this : t) (id : PathParam) : string :=
  basePath this ++ "/addresses/" ++ ToString id.

Definition setDefault (this : t) (id : PathParam) : string :=
  basePath this ++ "/addresses/" ++ ToString id ++ "/set-default".

End addresses.

End ProfileEndpoints.

(** [class ReviewsEndpoints]. *)
Module ReviewsEndpoints.

Record t : Type := mk { basePath : string }.

Definition new (basePath0 : string) : t :=
  mk basePath0.

Definition create (this : t) (productId : PathParam) : string :=
  basePath this ++ "/products/" ++ ToString productId ++ "/Reviews".

Definition list (this : t) (productId : PathParam) : string :=
  basePath this ++ "/products/" ++ ToString productId ++ "/Reviews".

Definition getById (this : t) (productId : PathParam) (reviewId : PathParam) : string :=
  basePath this ++ "/products/" ++ ToString productId ++ "/Reviews/" ++ ToString reviewId.

Definition delete (this : t) (productId : PathParam) (reviewId : PathParam) : string :=
  basePath this ++ "/products/" ++ ToString productId ++ "/Reviews/" ++ ToString reviewId.

Definition myReview (this : t) (productId : PathParam) : string :=
  basePath this ++ "/products/" ++ ToString productId ++ "/my-review".

Definition markHelpful (this : t) (reviewId : PathParam) : string :=
  basePath this ++ "/reviews/" ++ ToString reviewId ++ "/helpful".

Definition moderate (this : t) (productId : PathParam) (reviewId : PathParam) : string :=
  basePath this ++ "/products/" ++ ToString productId ++ "/Reviews/" ++ ToString reviewId ++ "/moderate".

Module admin.

Definition list (this : t) : string :=
  basePath this ++ "/admin/reviews".

End admin.

End ReviewsEndpoints.

(** [class WishlistEndpoints]. *)
Module WishlistEndpoints.

Record t : Type := mk { basePath : string }.

Definition new (basePath0 : string) : t :=
  mk (basePath0 ++ "/Wishlist").

Definition get (this : t) : string :=
  basePath this.

Definition clear (this : t) : string :=
  basePath this.

Definition addItem (this : t) (productId : PathParam) : string :=
  basePath this ++ "/items/" ++ ToString productId.

Definition removeItem (this : t) (productId : PathParam) : string :=
  basePath this ++ "/items/" ++ ToString productId.

Definition checkItem (this : t) (productId : PathParam) : string :=
  basePath this ++ "/check/" ++ ToString productId.

Definition moveToCart (this : t) : string :=
  basePath this ++ "/move-to-cart".

Definition count (this : t) : string :=
  basePath this ++ "/count".

End WishlistEndpoints.

(** [class PaymentMethodsEndpoints]. *)
Module PaymentMethodsEndpoints.

Record t : Type := mk { basePath : string }.

Definition new (basePath0 : string) : t :=
  mk (basePath0 ++ "/payment-methods").

Definition list (this : t) : string :=
  basePath this.

Definition add (this : t) : string :=
  basePath this.

Definition getById (this : t) (id : PathParam) : string :=
  basePath this ++ "/" ++ ToString id.

Definition update (this : t) (id : PathParam) : string :=
  basePath this ++ "/" ++ ToString id.

Definition delete (this : t) (id : PathParam) : string :=
  basePath this ++ "/" ++ ToString id.

Definition setDefault (this : t) (id : PathParam) : string :=
  basePath this ++ "/" ++ ToString id ++ "/set-default".

End PaymentMethodsEndpoints.

(** [class PaymentsEndpoints]. *)
Module PaymentsEndpoints.

Record t : Type := mk { basePath : string }.

Definition new (basePath0 : string) : t :=
  mk (basePath0 ++ "/payments").

Definition process (this : t) : string :=
  basePath this ++ "/process".

Definition transactions (this : t) : string :=
  basePath this ++ "/transactions".

Definition getTransaction (this : t) (id : PathParam) : string :=
  basePath this ++ "/transactions/" ++ ToString id.

Definition refund (this : t) : string :=
  basePath this ++ "/refund".

Module admin.

Definition transactions (this : t) : string :=
  basePath this ++ "/admin/transactions".

Definition statistics (this : t) : string :=
  basePath this ++ "/admin/statistics".

End admin.

End PaymentsEndpoints.

(** [class CouponsEndpoints]. *)
Module CouponsEndpoints.

Record t : Type := mk { basePath : string }.

Definition new (basePath0 : string) : t :=
  mk (basePath0 ++ "/Coupons").

Definition validate (this : t) (code : string) : string :=
  basePath this ++ "/validate/" ++ code.

Module admin.

Definition list (this : t) : string :=
  basePath this ++ "/admin/coupons".

Definition create (this : t) : string :=
  basePath this ++ "/admin/coupons".

Definition update (this : t) (id : PathParam) : string :=
  basePath this ++ "/admin/coupons/" ++ ToString id.

Definition delete (this : t) (id : PathParam) : string :=
  basePath this ++ "/admin/coupons/" ++ ToString id.

Definition usage (this : t) (id : PathParam) : string :=
  basePath this ++ "/admin/coupons/" ++ ToString id ++ "/usage".

End admin.

End CouponsEndpoints.

(** [class SessionEndpoints]. *)
Module SessionEndpoints.

Record t : Type := mk { basePath : string }.

Definition new (basePath0 : string) : t :=
  mk (basePath0 ++ "/Session").

Definition get (this : t) : string :=
  basePath this.

End SessionEndpoints.

(** [class UrlBuilder]: the constructor keeps [baseUrl || config.baseUrl];
    every getter builds a new endpoint object on each access. *)
Module UrlBuilder.

Record t : Type := mk { baseUrl : string }.

Definition new (baseUrl0 : option string) : Process.Eff t :=
  config <- Process.getconfig ;;
  Process.ret (mk (JS.or baseUrl0 (ApiConfig.baseUrl config))).

Definition Users (this : t) : UsersEndpoints.t :=
  UsersEndpoints.new (baseUrl this ++ "/api").

Definition Products (this : t) : ProductsEndpoints.t :=
  ProductsEndpoints.new (baseUrl this ++ "/api").

Definition Cart (this : t) : CartEndpoints.t :=
  CartEndpoints.new (baseUrl this ++ "/api").

Definition Orders (this : t) : OrdersEndpoints.t :=
  OrdersEndpoints.new (baseUrl this ++ "/api").

Definition Profile (this : t) : ProfileEndpoints.t :=
  ProfileEndpoints.new (baseUrl this ++ "/api").

Definition Reviews (this : t) : ReviewsEndpoints.t :=
  ReviewsEndpoints.new (baseUrl this ++ "/api").

Definition Wishlist (this : t) : WishlistEndpoints.t :=
  WishlistEndpoints.new (baseUrl this ++ "/api").

Definition PaymentMethods (this : t) : PaymentMethodsEndpoints.t :=
  PaymentMethodsEndpoints.new (baseUrl this ++ "/api").

Definition Payments (this : t) : PaymentsEndpoints.t :=
  PaymentsEndpoints.new (baseUrl this ++ "/api").

Definition Coupons (this : t) : CouponsEndpoints.t :=
  CouponsEndpoints.new (baseUrl this ++ "/api").

Definition Session (this : t) : SessionEndpoints.t :=
  SessionEndpoints.new (baseUrl this ++ "/api").

End UrlBuilder.

(** [export function LittleBugShop(baseUrl?: string): UrlBuilder]. *)
Definition LittleBugShop (baseUrl : option string)
  : Process.Eff UrlBuilder.t :=
  UrlBuilder.new baseUrl.

(** The URL an operation yields on a builder. *)
Definition url (b : UrlBuilder.t) (c : Call) : string :=
  match c with
  | Users_register => UsersEndpoints.register (UrlBuilder.Users b)
  | Users_login => UsersEndpoints.login (UrlBuilder.Users b)
  | Users_logout => UsersEndpoints.logout (UrlBuilder.Users b)
  | Users_getById id => UsersEndpoints.getById (UrlBuilder.Users b) id
  | Users_admin_users => UsersEndpoints.admin.users (UrlBuilder.Users b)
  | Users_admin_getUserById id => UsersEndpoints.admin.getUserById (UrlBuilder.Users b) id
  | Users_admin_updateUser id => UsersEndpoints.admin.updateUser (UrlBuilder.Users b) id
  | Users_admin_resetPassword id => UsersEndpoints.admin.resetPassword (UrlBuilder.Users b) id
  | Products_list => ProductsEndpoints.list (UrlBuilder.Products b)
  | Products_create => ProductsEndpoints.create (UrlBuilder.Products b)
  | Products_getById id => ProductsEndpoints.getById (UrlBuilder.Products b) id
  | Products_update id => ProductsEndpoints.update (UrlBuilder.Products b) id
  | Products_delete id => ProductsEndpoints.delete (UrlBuilder.Products b) id
  | Products_availability id => ProductsEndpoints.availability (UrlBuilder.Products b) id
  | Products_stock id => ProductsEndpoints.stock (UrlBuilder.Products b) id
  | Products_increaseStock id => ProductsEndpoints.increaseStock (UrlBuilder.Products b) id
  | Products_decreaseStock id => ProductsEndpoints.decreaseStock (UrlBuilder.Products b) id
  | Cart_get => CartEndpoints.get (UrlBuilder.Cart b)
  | Cart_delete => CartEndpoints.clear (UrlBuilder.Cart b)
  | Cart_addItem => CartEndpoints.addItem (UrlBuilder.Cart b)
  | Cart_updateItem itemId => CartEndpoints.updateItem (UrlBuilder.Cart b) itemId
  | Cart_removeItem itemId => CartEndpoints.removeItem (UrlBuilder.Cart b) itemId
  | Cart_checkout => CartEndpoints.checkout (UrlBuilder.Cart b)
  | Cart_applyCoupon => CartEndpoints.applyCoupon (UrlBuilder.Cart b)
  | Cart_removeCoupon => CartEndpoints.removeCoupon (UrlBuilder.Cart b)
  | Orders_create => OrdersEndpoints.create (UrlBuilder.Orders b)
  | Orders_place => OrdersEndpoints.place (UrlBuilder.Orders b)
  | Orders_list => OrdersEndpoints.list (UrlBuilder.Orders b)
  | Orders_myOrders => OrdersEndpoints.myOrders (UrlBuilder.Orders b)
  | Orders_getById id => OrdersEndpoints.getById (UrlBuilder.Orders b) id
  | Orders_delete id => OrdersEndpoints.delete (UrlBuilder.Orders b) id
  | Orders_updateStatus id => OrdersEndpoints.updateStatus (UrlBuilder.Orders b) id
  | Orders_pending => OrdersEndpoints.pending (UrlBuilder.Orders b)
  | Orders_cancel id => OrdersEndpoints.cancel (UrlBuilder.Orders b) id
  | Profile_get => ProfileEndpoints.get (UrlBuilder.Profile b)
  | Profile_update => ProfileEndpoints.update (UrlBuilder.Profile b)
  | Profile_addresses_add => ProfileEndpoints.addresses.add (UrlBuilder.Profile b)
  | Profile_addresses_update id => ProfileEndpoints.addresses.update (UrlBuilder.Profile b) id
  | Profile_addresses_delete id => ProfileEndpoints.addresses.delete (UrlBuilder.Profile b) id
  | Profile_addresses_setDefault id => ProfileEndpoints.addresses.setDefault (UrlBuilder.Profile b) id
  | Profile_changePassword => ProfileEndpoints.changePassword (UrlBuilder.Profile b)
  | Reviews_create productId => ReviewsEndpoints.create (UrlBuilder.Reviews b) productId
  | Reviews_list productId => ReviewsEndpoints.list (UrlBuilder.Reviews b) productId
  | Reviews_getById productId reviewId => ReviewsEndpoints.getById (UrlBuilder.Reviews b) productId reviewId
  | Reviews_delete productId reviewId => ReviewsEndpoints.delete (UrlBuilder.Reviews b) productId reviewId
  | Reviews_myReview productId => ReviewsEndpoints.myReview (UrlBuilder.Reviews b) productId
  | Reviews_markHelpful reviewId => ReviewsEndpoints.markHelpful (UrlBuilder.Reviews b) reviewId
  | Reviews_moderate productId reviewId => ReviewsEndpoints.moderate (UrlBuilder.Reviews b) productId reviewId
  | Reviews_admin_list => ReviewsEndpoints.admin.list (UrlBuilder.Reviews b)
  | Wishlist_get => WishlistEndpoints.get (UrlBuilder.Wishlist b)
  | Wishlist_clear => WishlistEndpoints.clear (UrlBuilder.Wishlist b)
  | Wishlist_addItem productId => WishlistEndpoints.addItem (UrlBuilder.Wishlist b) productId
  | Wishlist_removeItem productId => WishlistEndpoints.removeItem (UrlBuilder.Wishlist b) productId
  | Wishlist_checkItem productId => WishlistEndpoints.checkItem (UrlBuilder.Wishlist b) productId
  | Wishlist_moveToCart => WishlistEndpoints.moveToCart (UrlBuilder.Wishlist b)
  | Wishlist_count => WishlistEndpoints.count (UrlBuilder.Wishlist b)
  | PaymentMethods_list => PaymentMethodsEndpoints.list (UrlBuilder.PaymentMethods b)
  | PaymentMethods_add => PaymentMethodsEndpoints.add (UrlBuilder.PaymentMethods b)
  | PaymentMethods_getById id => PaymentMethodsEndpoints.getById (UrlBuilder.PaymentMethods b) id
  | PaymentMethods_update id => PaymentMethodsEndpoints.update (UrlBuilder.PaymentMethods b) id
  | PaymentMethods_delete id => PaymentMethodsEndpoints.delete (UrlBuilder.PaymentMethods b) id
  | PaymentMethods_setDefault id => PaymentMethodsEndpoints.setDefault (UrlBuilder.PaymentMethods b) id
  | Payments_process => PaymentsEndpoints.process (UrlBuilder.Payments b)
  | Payments_transactions => PaymentsEndpoints.transactions (UrlBuilder.Payments b)
  | Payments_getTransaction id => PaymentsEndpoints.getTransaction (UrlBuilder.Payments b) id
  | Payments_refund => PaymentsEndpoints.refund (UrlBuilder.Payments b)
  | Payments_admin_transactions => PaymentsEndpoints.admin.transactions (UrlBuilder.Payments b)
  | Payments_admin_statistics => PaymentsEndpoints.admin.statistics (UrlBuilder.Payments b)
  | Coupons_validate code => CouponsEndpoints.validate (UrlBuilder.Coupons b) code
  | Coupons_admin_list => CouponsEndpoints.admin.list (UrlBuilder.Coupons b)
  | Coupons_admin_create => CouponsEndpoints.admin.create (UrlBuilder.Coupons b)
  | Coupons_admin_update id => CouponsEndpoints.admin.update (UrlBuilder.Coupons b) id
  | Coupons_admin_delete id => CouponsEndpoints.admin.delete (UrlBuilder.Coupons b) id
  | Coupons_admin_usage id => CouponsEndpoints.admin.usage (UrlBuilder.Coupons b) id
  | Session_get => SessionEndpoints.get (UrlBuilder.Session b)
  end.

End Lazy.

(** ** The object-literal builder ([utils/urlBuilders/]) *)

Module Eager.

(** The shape of the object that [createLittleBugShopEndpoints] returns:
    one record per nested object literal; a leaf is a string or a function
    of its path parameters. *)

Module Users.

Module admin.

Record t : Type := {
  users : string;
  getUserById : PathParam -> string;
  updateUser : PathParam -> string;
  resetPassword : PathParam -> string
}.

End admin.

Record t : Type := {
  register : string;
  login : string;
  logout : string;
  getById : PathParam -> string;
  admin : admin.t
}.

End Users.

Module Products.

Record t : Type := {
  list : string;
  create : string;
  getById : PathParam -> string;
  update : PathParam -> string;
  delete : PathParam -> string;
  availability : PathParam -> string;
  stock : PathParam -> string;
  increaseStock : PathParam -> string;
  decreaseStock : PathParam -> string
}.

End Products.

Module Cart.

Record t : Type := {
  get : string;
  delete : string;
  addItem : string;
  updateItem : PathParam -> string;
  removeItem : PathParam -> string;
  checkout : string;
  applyCoupon : string;
  removeCoupon : string
}.

End Cart.

Module Orders.

Record t : Type := {
  create : string;
  place : string;
  list : string;
  myOrders : string;
  getById : PathParam -> string;
  delete : PathParam -> string;
  updateStatus : PathParam -> string;
  pending : string;
  cancel : PathParam -> string
}.

End Orders.

Module Profile.

Module addresses.

Record t : Type := {
  add : string;
  update : PathParam -> string;
  delete : PathParam -> string;
  setDefault : PathParam -> string
}.

End addresses.

Record t : Type := {
  get : string;
  update : string;
  addresses : addresses.t;
  changePassword : string
}.

End Profile.

Module Reviews.

Module admin.

Record t : Type := {
  list : string
}.

End admin.

Record t : Type := {
  create : PathParam -> string;
  list : PathParam -> string;
  getById : PathParam -> PathParam -> string;
  delete : PathParam -> PathParam -> string;
  myReview : PathParam -> string;
  markHelpful : PathParam -> string;
  moderate : PathParam -> PathParam -> string;
  admin : admin.t
}.

End Reviews.

Module Wishlist.

Record t : Type := {
  get : string;
  clear : string;
  addItem : PathParam -> string;
  removeItem : PathParam -> string;
  checkItem : PathParam -> string;
  moveToCart : string;
  count : string
}.

End Wishlist.

Module PaymentMethods.

Record t : Type := {
  list : string;
  add : string;
  getById : PathParam -> string;
  update : PathParam -> string;
  delete : PathParam -> string;
  setDefault : PathParam -> string
}.

End PaymentMethods.

Module Payments.

Module admin.

Record t : Type := {
  transactions : string;
  statistics : string
}.

End admin.

Record t : Type := {
  process : string;
  transactions : string;
  getTransaction : PathParam -> string;
  refund : string;
  admin : admin.t
}.

End Payments.

Module Coupons.

Module admin.

Record t : Type := {
  list : string;
  create : string;
  update : PathParam -> string;
  delete : PathParam -> string;
  usage : PathParam -> string
}.

End admin.

Record t : Type := {
  validate : string -> string;
  admin : admin.t
}.

End Coupons.

Module Session.

Record t : Type := {
  get : string
}.

End Session.

Record Endpoints : Type := {
  Users : Users.t;
  Products : Products.t;
  Cart : Cart.t;
  Orders : Orders.t;
  Profile : Profile.t;
  Reviews : Reviews.t;
  Wishlist : Wishlist.t;
  PaymentMethods : PaymentMethods.t;
  Payments : Payments.t;
  Coupons : Coupons.t;
  Session : Session.t
}.

Definition createLittleBugShopEndpoints (buildUrl : string -> string)
  : Endpoints := {|
  Users := {|
    Users.register := buildUrl "/Users/register";
    Users.login := buildUrl "/Users/login";
    Users.logout := buildUrl "/Users/logout";
    Users.getById := fun id => buildUrl ("/Users/" ++ ToString id);
    Users.admin := {|
      Users.admin.users := buildUrl "/Users/admin/users";
      Users.admin.getUserById := fun id => buildUrl ("/Users/admin/users/" ++ ToString id);
      Users.admin.updateUser := fun id => buildUrl ("/Users/admin/users/" ++ ToString id);
      Users.admin.resetPassword := fun id => buildUrl ("/Users/admin/users/" ++ ToString id ++ "/reset-password")
    |}
  |};
  Products := {|
    Products.list := buildUrl "/Products";
    Products.create := buildUrl "/Products";
    Products.getById := fun id => buildUrl ("/Products/" ++ ToString id);
    Products.update := fun id => buildUrl ("/Products/" ++ ToString id);
    Products.delete := fun id => buildUrl ("/Products/" ++ ToString id);
    Products.availability := fun id => buildUrl ("/Products/" ++ ToString id ++ "/availability");
    Products.stock := fun id => buildUrl ("/Products/" ++ ToString id ++ "/stock");
    Products.increaseStock := fun id => buildUrl ("/Products/" ++ ToString id ++ "/stock/increase");
    Products.decreaseStock := fun id => buildUrl ("/Products/" ++ ToString id ++ "/stock/decrease")
  |};
  Cart := {|
    Cart.get := buildUrl "/Cart";
    Cart.delete := buildUrl "/Cart";
    Cart.addItem := buildUrl "/Cart/items";
    Cart.updateItem := fun itemId => buildUrl ("/Cart/items/" ++ ToString itemId);
    Cart.removeItem := fun itemId => buildUrl ("/Cart/items/" ++ ToString itemId);
    Cart.checkout := buildUrl "/Cart/checkout";
    Cart.applyCoupon := buildUrl "/Cart/apply-coupon";
    Cart.removeCoupon := buildUrl "/Cart/remove-coupon"
  |};
  Orders := {|
    Orders.create := buildUrl "/Orders/create";
    Orders.place := buildUrl "/Orders/place";
    Orders.list := buildUrl "/Orders";
    Orders.myOrders := buildUrl "/Orders/my-orders";
    Orders.getById := fun id => buildUrl ("/Orders/" ++ ToString id);
    Orders.delete := fun id => buildUrl ("/Orders/" ++ ToString id);
    Orders.updateStatus := fun id => buildUrl ("/Orders/" ++ ToString id ++ "/status");
    Orders.pending := buildUrl "/Orders/pending";
    Orders.cancel := fun id => buildUrl ("/Orders/" ++ ToString id ++ "/cancel")
  |};
  Profile := {|
    Profile.get := buildUrl "/users/profile";
    Profile.update := buildUrl "/users/profile";
    Profile.addresses := {|
      Profile.addresses.add := buildUrl "/users/profile/addresses";
      Profile.addresses.update := fun id => buildUrl ("/users/profile/addresses/" ++ ToString id);
      Profile.addresses.delete := fun id => buildUrl ("/users/profile/addresses/" ++ ToString id);
      Profile.addresses.setDefault := fun id => buildUrl ("/users/profile/addresses/" ++ ToString id ++ "/set-default")
    |};
    Profile.changePassword := buildUrl "/users/profile/change-password"
  |};
  Reviews := {|
    Reviews.create := fun productId => buildUrl ("/products/" ++ ToString productId ++ "/Reviews");
    Reviews.list := fun productId => buildUrl ("/products/" ++ ToString productId ++ "/Reviews");
    Reviews.getById := fun productId reviewId => buildUrl ("/products/" ++ ToString productId ++ "/Reviews/" ++ ToString reviewId);
    Reviews.delete := fun productId reviewId => buildUrl ("/products/" ++ ToString productId ++ "/Reviews/" ++ ToString reviewId);
    Reviews.myReview := fun productId => buildUrl ("/products/" ++ ToString productId ++ "/my-review");
    Reviews.markHelpful := fun reviewId => buildUrl ("/reviews/" ++ ToString reviewId ++ "/helpful");
    Reviews.moderate := fun productId reviewId => buildUrl ("/products/" ++ ToString productId ++ "/Reviews/" ++ ToString reviewId ++ "/moderate");
    Reviews.admin := {|
      Reviews.admin.list := buildUrl "/admin/reviews"
    |}
  |};
  Wishlist := {|
    Wishlist.get := buildUrl "/Wishlist";
    Wishlist.clear := buildUrl "/Wishlist";
    Wishlist.addItem := fun productId => buildUrl ("/Wishlist/items/" ++ ToString productId);
    Wishlist.removeItem := fun productId => buildUrl ("/Wishlist/items/" ++ ToString productId);
    Wishlist.checkItem := fun productId => buildUrl ("/Wishlist/check/" ++ ToString productId);
    Wishlist.moveToCart := buildUrl "/Wishlist/move-to-cart";
    Wishlist.count := buildUrl "/Wishlist/count"
  |};
  PaymentMethods := {|
    PaymentMethods.list := buildUrl "/payment-methods";
    PaymentMethods.add := buildUrl "/payment-methods";
    PaymentMethods.getById := fun id => buildUrl ("/payment-methods/" ++ ToString id);
    PaymentMethods.update := fun id => buildUrl ("/payment-methods/" ++ ToString id);
    PaymentMethods.delete := fun id => buildUrl ("/payment-methods/" ++ ToString id);
    PaymentMethods.setDefault := fun id => buildUrl ("/payment-methods/" ++ ToString id ++ "/set-default")
  |};
  Payments := {|
    Payments.process := buildUrl "/payments/process";
    Payments.transactions := buildUrl "/payments/transactions";
    Payments.getTransaction := fun id => buildUrl ("/payments/transactions/" ++ ToString id);
    Payments.refund := buildUrl "/payments/refund";
    Payments.admin := {|
      Payments.admin.transactions := buildUrl "/payments/admin/transactions";
      Payments.admin.statistics := buildUrl "/payments/admin/statistics"
    |}
  |};
  Coupons := {|
    Coupons.validate := fun code => buildUrl ("/Coupons/validate/" ++ code);
    Coupons.admin := {|
      Coupons.admin.list := buildUrl "/Coupons/admin/coupons";
      Coupons.admin.create := buildUrl "/Coupons/admin/coupons";
      Coupons.admin.update := fun id => buildUrl ("/Coupons/admin/coupons/" ++ ToString id);
      Coupons.admin.delete := fun id => buildUrl ("/Coupons/admin/coupons/" ++ ToString id);
      Coupons.admin.usage := fun id => buildUrl ("/Coupons/admin/coupons/" ++ ToString id ++ "/usage")
    |}
  |};
  Session := {|
    Session.get := buildUrl "/Session"
  |}
|}.

(** The object returned by [LittleBugShop()]. *)
Record Registry : Type := {
  BaseUrl : string;
  Controllers : Endpoints
}.

(** [export function LittleBugShop()]: no parameter; the base is
    [`${process.env.BASE_URL}`]. *)
Definition LittleBugShop : Process.Eff Registry :=
  v <- Process.getenv "BASE_URL" ;;
  let baseUrl := JS.interpolate v in
  Process.ret {|
    BaseUrl := baseUrl;
    Controllers :=
      createLittleBugShopEndpoints (fun path => baseUrl ++ "/api" ++ path)
  |}.

(** The URL an operation yields on the endpoint object. *)
Definition url (e : Endpoints) (c : Call) : string :=
  match c with
  | Users_register => Users.register (Users e)
  | Users_login => Users.login (Users e)
  | Users_logout => Users.logout (Users e)
  | Users_getById id => Users.getById (Users e) id
  | Users_admin_users => Users.admin.users (Users.admin (Users e))
  | Users_admin_getUserById id => Users.admin.getUserById (Users.admin (Users e)) id
  | Users_admin_updateUser id => Users.admin.updateUser (Users.admin (Users e)) id
  | Users_admin_resetPassword id => Users.admin.resetPassword (Users.admin (Users e)) id
  | Products_list => Products.list (Products e)
  | Products_create => Products.create (Products e)
  | Products_getById id => Products.getById (Products e) id
  | Products_update id => Products.update (Products e) id
  | Products_delete id => Products.delete (Products e) id
  | Products_availability id => Products.availability (Products e) id
  | Products_stock id => Products.stock (Products e) id
  | Products_increaseStock id => Products.increaseStock (Products e) id
  | Products_decreaseStock id => Products.decreaseStock (Products e) id
  | Cart_get => Cart.get (Cart e)
  | Cart_delete => Cart.delete (Cart e)
  | Cart_addItem => Cart.addItem (Cart e)
  | Cart_updateItem itemId => Cart.updateItem (Cart e) itemId
  | Cart_removeItem itemId => Cart.removeItem (Cart e) itemId
  | Cart_checkout => Cart.checkout (Cart e)
  | Cart_applyCoupon => Cart.applyCoupon (Cart e)
  | Cart_removeCoupon => Cart.removeCoupon (Cart e)
  | Orders_create => Orders.create (Orders e)
  | Orders_place => Orders.place (Orders e)
  | Orders_list => Orders.list (Orders e)
  | Orders_myOrders => Orders.myOrders (Orders e)
  | Orders_getById id => Orders.getById (Orders e) id
  | Orders_delete id => Orders.delete (Orders e) id
  | Orders_updateStatus id => Orders.updateStatus (Orders e) id
  | Orders_pending => Orders.pending (Orders e)
  | Orders_cancel id => Orders.cancel (Orders e) id
  | Profile_get => Profile.get (Profile e)
  | Profile_update => Profile.update (Profile e)
  | Profile_addresses_add => Profile.addresses.add (Profile.addresses (Profile e))
  | Profile_addresses_update id => Profile.addresses.update (Profile.addresses (Profile e)) id
  | Profile_addresses_delete id => Profile.addresses.delete (Profile.addresses (Profile e)) id
  | Profile_addresses_setDefault id => Profile.addresses.setDefault (Profile.addresses (Profile e)) id
  | Profile_changePassword => Profile.changePassword (Profile e)
  | Reviews_create productId => Reviews.create (Reviews e) productId
  | Reviews_list productId => Reviews.list (Reviews e) productId
  | Reviews_getById productId reviewId => Reviews.getById (Reviews e) productId reviewId
  | Reviews_delete productId reviewId => Reviews.delete (Reviews e) productId reviewId
  | Reviews_myReview productId => Reviews.myReview (Reviews e) productId
  | Reviews_markHelpful reviewId => Reviews.markHelpful (Reviews e) reviewId
  | Reviews_moderate productId reviewId => Reviews.moderate (Reviews e) productId reviewId
  | Reviews_admin_list => Reviews.admin.list (Reviews.admin (Reviews e))
  | Wishlist_get => Wishlist.get (Wishlist e)
  | Wishlist_clear => Wishlist.clear (Wishlist e)
  | Wishlist_addItem productId => Wishlist.addItem (Wishlist e) productId
  | Wishlist_removeItem productId => Wishlist.removeItem (Wishlist e) productId
  | Wishlist_checkItem productId => Wishlist.checkItem (Wishlist e) productId
  | Wishlist_moveToCart => Wishlist.moveToCart (Wishlist e)
  | Wishlist_count => Wishlist.count (Wishlist e)
  | PaymentMethods_list => PaymentMethods.list (PaymentMethods e)
  | PaymentMethods_add => PaymentMethods.add (PaymentMethods e)
  | PaymentMethods_getById id => PaymentMethods.getById (PaymentMethods e) id
  | PaymentMethods_update id => PaymentMethods.update (PaymentMethods e) id
  | PaymentMethods_delete id => PaymentMethods.delete (PaymentMethods e) id
  | PaymentMethods_setDefault id => PaymentMethods.setDefault (PaymentMethods e) id
  | Payments_process => Payments.process (Payments e)
  | Payments_transactions => Payments.transactions (Payments e)
  | Payments_getTransaction id => Payments.getTransaction (Payments e) id
  | Payments_refund => Payments.refund (Payments e)
  | Payments_admin_transactions => Payments.admin.transactions (Payments.admin (Payments e))
  | Payments_admin_statistics => Payments.admin.statistics (Payments.admin (Payments e))
  | Coupons_validate code => Coupons.validate (Coupons e) code
  | Coupons_admin_list => Coupons.admin.list (Coupons.admin (Coupons e))
  | Coupons_admin_create => Coupons.admin.create (Coupons.admin (Coupons e))
  | Coupons_admin_update id => Coupons.admin.update (Coupons.admin (Coupons e)) id
  | Coupons_admin_delete id => Coupons.admin.delete (Coupons.admin (Coupons e)) id
  | Coupons_admin_usage id => Coupons.admin.usage (Coupons.admin (Coupons e)) id
  | Session_get => Session.get (Session e)
  end.

(** The path an operation hands to [buildUrl]. *)
Definition path (c : Call) : string :=
  url (createLittleBugShopEndpoints (fun p => p)) c.

End Eager.

(** ** Strings *)

#[local] Arguments String.append !s1 s2 : simpl nomatch.

(** Whether the character [ch] occurs in [s]. *)
Fixpoint contains (ch : ascii) (s : string) : bool :=
  match s with
  | EmptyString => false
  | String a s' => Ascii.eqb a ch || contains ch s'
  end.

(** The last character of [s], if it has one. *)
Fixpoint last_char (s : string) : option ascii :=
  match s with
  | EmptyString => None
  | String a EmptyString => Some a
  | String _ s' => last_char s'
  end.

Definition is_empty (s : string) : bool :=
  match s with
  | EmptyString => true
  | String _ _ => false
  end.

(** A URL has a trailing slash when its last character is ["/"]. *)
Definition trailing_slash (s : string) : bool :=
  match last_char s with
  | Some a => Ascii.eqb a "/"
  | None => false
  end.

(** A URL carries a query string when it contains ["?"]. *)
Definition has_query (s : string) : bool := contains "?" s.

(** A parameter text that can be appended to a path without ending it in a
    slash or starting a query string. *)
Definition plain_segment (s : string) : bool :=
  negb (is_empty s) && negb (trailing_slash s) && negb (has_query s).

(** [s] starts with [p]. *)
Fixpoint starts_with (p s : string) : bool :=
  match p with
  | EmptyString => true
  | String a p' =>
      match s with
      | EmptyString => false
      | String b s' => Ascii.eqb a b && starts_with p' s'
      end
  end.

(** ** Calls as the tests make them *)

(** [LittleBugShop(baseUrl).Group.operation(args)] on the class based
    builder. *)
Definition Lazy_eval (baseUrl : option string) (c : Call)
  : Process.Eff string :=
  b <- Lazy.LittleBugShop baseUrl ;;
  Process.ret (Lazy.url b c).

(** [LittleBugShop().Controllers.Group.operation(args)] on the
    object-literal builder. *)
Definition Eager_eval (c : Call) : Process.Eff string :=
  r <- Eager.LittleBugShop ;;
  Process.ret (Eager.url (Eager.Controllers r) c).

(** The base URL each builder resolves in a given state. *)
Definition Lazy_base (baseUrl : option string) (w : Process.World) : string :=
  Lazy.UrlBuilder.baseUrl (fst (Lazy.LittleBugShop baseUrl w)).

Definition Eager_base (w : Process.World) : string :=
  Eager.BaseUrl (fst (Eager.LittleBugShop w)).

(** The closure [(path) => `${baseUrl}/api${path}`]. *)
Definition buildUrl_of (baseUrl : string) : string -> string :=
  fun path => baseUrl ++ "/api" ++ path.

(** An environment in which no variable is set. *)
Definition unset_env : ProcessEnv := empty.

(** The resource groups whose root is not the capitalised group name. *)
Definition six_groups : list Group :=
  [GProfile; GReviews; GWishlist; GPaymentMethods; GPayments; GCoupons].

(** The literal a group's paths start with, as the source writes them. *)
Definition roots (g : Group) : list string :=
  match g with
  | GUsers => ["/Users"]
  | GProducts => ["/Products"]
  | GCart => ["/Cart"]
  | GOrders => ["/Orders"]
  | GProfile => ["/users/profile"]
  | GReviews => ["/products/"; "/reviews/"; "/admin/reviews"]
  | GWishlist => ["/Wishlist"]
  | GPaymentMethods => ["/payment-methods"]
  | GPayments => ["/payments"]
  | GCoupons => ["/Coupons"]
  | GSession => ["/Session"]
  end.

Definition rooted (c : Call) (path : string) : bool :=
  existsb (fun r => starts_with r path) (roots (group c)).

(** The two builders disagree on an operation when, for some base URL,
    they yield different URLs. *)
Definition variants_disagree (c : Call) : Prop :=
  exists base,
    Eager.url (Eager.createLittleBugShopEndpoints (buildUrl_of base)) c
    <> Lazy.url (Lazy.UrlBuilder.mk base) c.

(** ** Further code of the repository *)

(** *** Structure of the registry *)

(** The operations that live in a nested [admin] object. *)
Definition is_admin (c : Call) : bool :=
  match c with
  | Users_admin_users | Users_admin_getUserById _ | Users_admin_updateUser _
  | Users_admin_resetPassword _ | Reviews_admin_list
  | Payments_admin_transactions | Payments_admin_statistics
  | Coupons_admin_list | Coupons_admin_create | Coupons_admin_update _
  | Coupons_admin_delete _ | Coupons_admin_usage _ => true
  | _ => false
  end.

(** [p] occurs in [s]. *)
Fixpoint infix_of (p s : string) : bool :=
  starts_with p s
  || match s with
     | EmptyString => false
     | String _ s' => infix_of p s'
     end.

(** The operation of a call: the call with its parameters blanked. *)
Definition operation (c : Call) : Call :=
  match c with
  | Users_getById _ => Users_getById (PStr EmptyString)
  | Users_admin_getUserById _ => Users_admin_getUserById (PStr EmptyString)
  | Users_admin_updateUser _ => Users_admin_updateUser (PStr EmptyString)
  | Users_admin_resetPassword _ => Users_admin_resetPassword (PStr EmptyString)
  | Products_getById _ => Products_getById (PStr EmptyString)
  | Products_update _ => Products_update (PStr EmptyString)
  | Products_delete _ => Products_delete (PStr EmptyString)
  | Products_availability _ => Products_availability (PStr EmptyString)
  | Products_stock _ => Products_stock (PStr EmptyString)
  | Products_increaseStock _ => Products_increaseStock (PStr EmptyString)
  | Products_decreaseStock _ => Products_decreaseStock (PStr EmptyString)
  | Cart_updateItem _ => Cart_updateItem (PStr EmptyString)
  | Cart_removeItem _ => Cart_removeItem (PStr EmptyString)
  | Orders_getById _ => Orders_getById (PStr EmptyString)
  | Orders_delete _ => Orders_delete (PStr EmptyString)
  | Orders_updateStatus _ => Orders_updateStatus (PStr EmptyString)
  | Orders_cancel _ => Orders_cancel (PStr EmptyString)
  | Profile_addresses_update _ => Profile_addresses_update (PStr EmptyString)
  | Profile_addresses_delete _ => Profile_addresses_delete (PStr EmptyString)
  | Profile_addresses_setDefault _ =>
      Profile_addresses_setDefault (PStr EmptyString)
  | Reviews_create _ => Reviews_create (PStr EmptyString)
  | Reviews_list _ => Reviews_list (PStr EmptyString)
  | Reviews_getById _ _ =>
      Reviews_getById (PStr EmptyString) (PStr EmptyString)
  | Reviews_delete _ _ => Reviews_delete (PStr EmptyString) (PStr EmptyString)
  | Reviews_myReview _ => Reviews_myReview (PStr EmptyString)
  | Reviews_markHelpful _ => Reviews_markHelpful (PStr EmptyString)
  | Reviews_moderate _ _ =>
      Reviews_moderate (PStr EmptyString) (PStr EmptyString)
  | Wishlist_addItem _ => Wishlist_addItem (PStr EmptyString)
  | Wishlist_removeItem _ => Wishlist_removeItem (PStr EmptyString)
  | Wishlist_checkItem _ => Wishlist_checkItem (PStr EmptyString)
  | PaymentMethods_getById _ => PaymentMethods_getById (PStr EmptyString)
  | PaymentMethods_update _ => PaymentMethods_update (PStr EmptyString)
  | PaymentMethods_delete _ => PaymentMethods_delete (PStr EmptyString)
  | PaymentMethods_setDefault _ => PaymentMethods_setDefault (PStr EmptyString)
  | Payments_getTransaction _ => Payments_getTransaction (PStr EmptyString)
  | Coupons_validate _ => Coupons_validate EmptyString
  | Coupons_admin_update _ => Coupons_admin_update (PStr EmptyString)
  | Coupons_admin_delete _ => Coupons_admin_delete (PStr EmptyString)
  | Coupons_admin_usage _ => Coupons_admin_usage (PStr EmptyString)
  | c0 => c0
  end.

(** A parameter text without a slash. *)
Definition slash_free (s : string) : bool := negb (contains "/" s).

(** [export const endpoints] of [config/api.config.ts]: the paths the
    older tests pass to the client, which resolves them against the base
    URL. *)
Module ApiEndpoints.

Record Endpoints : Type := {
  users : string;
  register : string;
  login : string;
  logout : string;
  products : string;
  cart : string;
  orders : string
}.

Definition endpoints : Endpoints := {|
  users := "/api/Users";
  register := "/api/Users/register";
  login := "/api/Users/login";
  logout := "/api/Users/logout";
  products := "/api/Products";
  cart := "/api/Cart";
  orders := "/api/Orders"
|}.

End ApiEndpoints.

(** *** [retryUntilStatus] (the retry helper of [utils])

    [fn] is called once per attempt; what each call does is given by
    [fn k], the outcome of the call number [k] (from 0): the promise
    resolves to a response or rejects with an error.  The run is recorded
    as the list of calls and of pauses ([setTimeout] of [delayMs]) in the
    order they happen.  The numbers are integral. *)
Module Retry.

Inductive Outcome (R E : Type) : Type :=
| Resolved (r : R)
| Rejected (e : E).

Arguments Resolved {R E} r.
Arguments Rejected {R E} e.

Inductive Event : Type :=
| Called
| Slept (ms : Z).

(** How the returned promise settles: with a response, with the error
    [fn] rejected with, or with the [Error] built after the loop. *)
Inductive Result (R E : Type) : Type :=
| Returned (r : R)
| Threw (e : E)
| ThrewError (message : string).

Arguments Returned {R E} r.
Arguments Threw {R E} e.
Arguments ThrewError {R E} message.

(** [`Failed to get status ${expectedStatus} after ${maxAttempts}
    attempts. Last status: ${lastResponse?.status()}`]. *)
Definition failure_message {R : Type} (status : R -> Z)
    (expectedStatus maxAttempts : Z) (lastResponse : option R) : string :=
  "Failed to get status " ++ ToString (PNum expectedStatus)
  ++ " after " ++ ToString (PNum maxAttempts)
  ++ " attempts. Last status: "
  ++ match lastResponse with
     | Some r => ToString (PNum (status r))
     | None => "undefined"
     end.

(** The events [evs] followed by the run [run]. *)
Definition after {A : Type} (evs : list Event)
    (run : option (A * list Event)) : option (A * list Event) :=
  match run with
  | Some (a, log) => Some (a, (evs ++ log)%list)
  | None => None
  end.

(** The [for] loop from [attempt] on, [calls] calls having been made;
    [None] when the fuel runs out. *)
Fixpoint loop {R E : Type} (status : R -> Z) (fn : nat -> Outcome R E)
    (expectedStatus maxAttempts delayMs : Z)
    (fuel : nat) (attempt : Z) (calls : nat) (lastResponse : option R)
  : option (Result R E * list Event) :=
  match fuel with
  | O => None
  | S fuel' =>
      if (attempt <=? maxAttempts)%Z then
        match fn calls with
        | Resolved r =>
            if (status r =? expectedStatus)%Z then
              Some (Returned r, [Called])
            else if (attempt <? maxAttempts)%Z then
              after [Called; Slept delayMs]
                (loop status fn expectedStatus maxAttempts delayMs
                   fuel' (attempt + 1)%Z (S calls) (Some r))
            else
              after [Called]
                (loop status fn expectedStatus maxAttempts delayMs
                   fuel' (attempt + 1)%Z (S calls) (Some r))
        | Rejected e =>
            if (attempt =? maxAttempts)%Z then
              Some (Threw e, [Called])
            else
              after [Called; Slept delayMs]
                (loop status fn expectedStatus maxAttempts delayMs
                   fuel' (attempt + 1)%Z (S calls) lastResponse)
        end
      else
        Some (ThrewError
                (failure_message status expectedStatus maxAttempts
                   lastResponse), [])
  end.

(** [retryUntilStatus(fn, expectedStatus, maxAttempts, delayMs)]; the loop
    needs at most [maxAttempts + 1] tests of its condition. *)
Definition retryUntilStatus {R E : Type} (status : R -> Z)
    (fn : nat -> Outcome R E) (expectedStatus maxAttempts delayMs : Z)
  : option (Result R E * list Event) :=
  loop status fn expectedStatus maxAttempts delayMs
    (S (Z.to_nat maxAttempts)) 1%Z 0 None.

(** The call with the optional arguments left out: status 200, 5
    attempts, 1000 ms. *)
Definition retryUntilStatus_default {R E : Type} (status : R -> Z)
    (fn : nat -> Outcome R E) : option (Result R E * list Event) :=
  retryUntilStatus status fn 200%Z 5%Z 1000%Z.

(** The call number [k] yields the expected status. *)
Definition hit {R E : Type} (status : R -> Z) (fn : nat -> Outcome R E)
    (expectedStatus : Z) (k : nat) : bool :=
  match fn k with
  | Resolved r => (status r =? expectedStatus)%Z
  | Rejected _ => false
  end.

(** [k] failed attempts, each followed by a pause. *)
Fixpoint failed_attempts (delayMs : Z) (k : nat) : list Event :=
  match k with
  | O => []
  | S k' => Called :: Slept delayMs :: failed_attempts delayMs k'
  end.

Definition calls_in (log : list Event) : nat :=
  List.length
    (List.filter (fun ev => match ev with Called => true | _ => false end)
       log).

Definition pauses_in (log : list Event) : nat :=
  List.length
    (List.filter (fun ev => match ev with Slept _ => true | _ => false end)
       log).

End Retry.

(** *** [TestDataGenerator] ([utils/testDataGenerator.ts])

    [Math.random] is an input: [rnd k n] is the integer
    [Math.floor(Math.random() * n)] (equally [(Math.random() * n) | 0])
    for the call number [k] of [Math.random].  A method takes the number of
    calls made so far and returns it updated. *)
Module TestDataGenerator.

(** What the integer part of [Math.random() * n] satisfies. *)
Definition in_range (rnd : nat -> Z -> Z) : Prop :=
  forall (k : nat) (n : Z), (0 < n)%Z -> (0 <= rnd k n < n)%Z.

Definition chars : string :=
  "ABCDEFGHIJKLMNOPQRSTUVWXYZabcdefghijklmnopqrstuvwxyz0123456789".

(** [s.charAt(i)]: the character at [i], or the empty string when [i] is
    out of range. *)
Definition charAt (s : string) (i : Z) : string :=
  if (i <? 0)%Z then EmptyString
  else match String.get (Z.to_nat i) s with
       | Some c => String c EmptyString
       | None => EmptyString
       end.

(** The loop of [generateRandomString] with [n] iterations left. *)
Fixpoint generateRandomString_loop (rnd : nat -> Z -> Z) (n : nat)
    (result : string) (k : nat) : string * nat :=
  match n with
  | O => (result, k)
  | S n' =>
      generateRandomString_loop rnd n'
        (result ++ charAt chars (rnd k (Z.of_nat (String.length chars))))
        (S k)
  end.

Definition generateRandomString (rnd : nat -> Z -> Z) (length : Z) (k : nat)
  : string * nat :=
  generateRandomString_loop rnd (Z.to_nat length) EmptyString k.

(** [`test_${this.generateRandomString(8)}@example.com`]. *)
Definition generateRandomEmail (rnd : nat -> Z -> Z) (k : nat)
  : string * nat :=
  let (s, k') := generateRandomString rnd 8 k in
  ("test_" ++ s ++ "@example.com", k').

(** [v.toString(16)] for an integer [v]. *)
Definition toString16 (v : Z) : string :=
  HexadecimalString.NilZero.string_of_int (Z.to_hex_int v).

(** [s.replace(/[xy]/g, (c) => ...)] with the callback of
    [generateUUID]. *)
Fixpoint replace_xy (rnd : nat -> Z -> Z) (s : string) (k : nat)
  : string * nat :=
  match s with
  | EmptyString => (EmptyString, k)
  | String c s' =>
      if Ascii.eqb c "x" || Ascii.eqb c "y" then
        let r := rnd k 16%Z in
        let v := if Ascii.eqb c "x" then r else Z.lor (Z.land r 3) 8 in
        let (rest, k') := replace_xy rnd s' (S k) in
        (toString16 v ++ rest, k')
      else
        let (rest, k') := replace_xy rnd s' k in
        (String c rest, k')
  end.

Definition uuid_template : string := "xxxxxxxx-xxxx-4xxx-yxxx-xxxxxxxxxxxx".

Definition generateUUID (rnd : nat -> Z -> Z) (k : nat) : string * nat :=
  replace_xy rnd uuid_template k.

(** Every character of [s] is one of [allowed]. *)
Fixpoint all_in (allowed s : string) : bool :=
  match s with
  | EmptyString => true
  | String c s' => contains c allowed && all_in allowed s'
  end.

(** The number of occurrences of [ch] in [s]. *)
Fixpoint count_char (ch : ascii) (s : string) : nat :=
  match s with
  | EmptyString => 0
  | String c s' => (if Ascii.eqb c ch then 1 else 0) + count_char ch s'
  end.

(** [out] follows the pattern [pat]: a lowercase hexadecimal digit for
    each [x], one of [8 9 a b] for each [y], and the character of the
    pattern elsewhere. *)
Fixpoint follows (pat out : string) : bool :=
  match pat, out with
  | EmptyString, EmptyString => true
  | String p pat', String o out' =>
      (if Ascii.eqb p "x" then contains o "0123456789abcdef"
       else if Ascii.eqb p "y" then contains o "89ab"
       else Ascii.eqb p o)
      && follows pat' out'
  | _, _ => false
  end.

End TestDataGenerator.

(** *** [CartFactory] ([utils/factories/cartFactory.ts])

    An object is a finite map from property names to values; a property
    may hold [undefined].  The state of faker's generator is threaded
    through every call. *)
Module CartFactory.

Inductive Value : Type :=
| VUndefined
| VNumber (n : Z).

(** An optional [number] argument as a property value. *)
Definition of_optional (x : option Z) : Value :=
  match x with
  | Some n => VNumber n
  | None => VUndefined
  end.

(** faker: [number_int min max] is [faker.number.int({ min, max })]. *)
Record Faker : Type := {
  state : Type;
  number_int : Z -> Z -> state -> Z * state
}.

(** What faker documents: the integer lies between [min] and [max]. *)
Definition in_bounds (F : Faker) : Prop :=
  forall (min max : Z) (s : state F),
    (min <= max)%Z -> (min <= fst (number_int F min max s) <= max)%Z.

(** [{ ...a, ...b }]: the properties of [b], then those of [a] that [b]
    does not have. *)
Definition spread (a b : gmap string Value) : gmap string Value := b ∪ a.

(** [generateCartItem(overrides?)]. *)
Definition generateCartItem (F : Faker)
    (overrides : option (gmap string Value)) (s : state F)
  : gmap string Value * state F :=
  let (productId, s1) := number_int F 1 1000 s in
  let (quantity, s2) := number_int F 1 10 s1 in
  (spread
     (<["productId" := VNumber productId]>
        (<["quantity" := VNumber quantity]> ∅))
     (default ∅ overrides),
   s2).

Definition generateCartItemWithProductId (F : Faker) (productId : Z)
    (s : state F) : gmap string Value * state F :=
  generateCartItem F (Some (<["productId" := VNumber productId]> ∅)) s.

Definition generateCartItemWithQuantity (F : Faker) (quantity : Z)
    (s : state F) : gmap string Value * state F :=
  generateCartItem F (Some (<["quantity" := VNumber quantity]> ∅)) s.

Definition generateCartItemWithNegativeProductId (F : Faker) (s : state F)
  : gmap string Value * state F :=
  let (n, s1) := number_int F 1 100 s in
  generateCartItem F (Some (<["productId" := VNumber (- n)]> ∅)) s1.

Definition generateCartItemWithZeroProductId (F : Faker) (s : state F)
  : gmap string Value * state F :=
  generateCartItem F (Some (<["productId" := VNumber 0]> ∅)) s.

(** The object literal [{ productId, quantity: q }]. *)
Definition with_quantity (productId : option Z) (q : Z)
  : gmap string Value :=
  <["productId" := of_optional productId]> (<["quantity" := VNumber q]> ∅).

Definition generateCartItemWithNegativeQuantity (F : Faker)
    (productId : option Z) (s : state F) : gmap string Value * state F :=
  let (n, s1) := number_int F 1 10 s in
  generateCartItem F (Some (with_quantity productId (- n))) s1.

Definition generateCartItemWithZeroQuantity (F : Faker)
    (productId : option Z) (s : state F) : gmap string Value * state F :=
  generateCartItem F (Some (with_quantity productId 0)) s.

Definition generateCartItemWithLargeQuantity (F : Faker)
    (productId : option Z) (s : state F) : gmap string Value * state F :=
  let (n, s1) := number_int F 1000 10000 s in
  generateCartItem F (Some (with_quantity productId n)) s1.

Definition generateCartItemWithNonExistentProductId (F : Faker)
    (s : state F) : gmap string Value * state F :=
  let (n, s1) := number_int F 999999 9999999 s in
  generateCartItem F (Some (<["productId" := VNumber n]> ∅)) s1.

Definition generateSingleQuantityCartItem (F : Faker)
    (productId : option Z) (s : state F) : gmap string Value * state F :=
  generateCartItem F (Some (with_quantity productId 1)) s.

Definition generateMaxQuantityCartItem (F : Faker)
    (productId : option Z) (s : state F) : gmap string Value * state F :=
  generateCartItem F (Some (with_quantity productId 99)) s.

(** The [while] loop of [generateUniqueCartItems]; [None] when the fuel
    runs out before [items] has [count] elements. *)
Fixpoint generateUniqueCartItems_loop (F : Faker) (count : Z) (fuel : nat)
    (productIds : gset Z) (items : list (gmap string Value)) (s : state F)
  : option (list (gmap string Value) * state F) :=
  if (Z.of_nat (List.length items) <? count)%Z then
    match fuel with
    | O => None
    | S fuel' =>
        let (productId, s1) := number_int F 1 1000 s in
        if decide (productId ∈ productIds) then
          generateUniqueCartItems_loop F count fuel' productIds items s1
        else
          let (item, s2) := generateCartItemWithProductId F productId s1 in
          generateUniqueCartItems_loop F count fuel'
            ({[ productId ]} ∪ productIds) (items ++ [item])%list s2
    end
  else Some (items, s).

Definition generateUniqueCartItems (F : Faker) (count : Z) (fuel : nat)
    (s : state F) : option (list (gmap string Value) * state F) :=
  generateUniqueCartItems_loop F count fuel ∅ [] s.

(** The [productId] of an item. *)
Definition productId_of (item : gmap string Value) : option Value :=
  item !! "productId".

(** A faker whose integers walk through the range: the state counts the
    calls. *)
Definition counting_faker : Faker := {|
  state := nat;
  number_int := fun min max s =>
    ((min + Z.of_nat s mod (max - min + 1))%Z, S s)
|}.

End CartFactory.

(** *** [UserFactory] ([utils/userFactory.ts])

    A registration request is an object whose properties hold strings or
    [undefined].  What the factory takes from its surroundings is an
    environment: the generators of faker, the shuffle
    [s.split('').sort(() => Math.random() - 0.5).join('')] and
    [toLowerCase], with the state of the random generators threaded
    through.  A computation is [None] when a call throws. *)
Module UserFactory.

Inductive Value : Type :=
| VUndefined
| VString (s : string).

Record Env : Type := {
  state : Type;
  internet_username : state -> string * state;
  internet_email : state -> string * state;
  person_firstName : state -> string * state;
  person_lastName : state -> string * state;
  phone_number : state -> string * state;
  (** [faker.string.alpha({ length, casing })]; [true] for ['upper']. *)
  string_alpha : Z -> bool -> state -> string * state;
  string_numeric : Z -> state -> string * state;
  string_alphanumeric : Z -> state -> string * state;
  (** [faker.helpers.arrayElement(array)]. *)
  arrayElement : list string -> state -> option (string * state);
  shuffle : string -> state -> string * state;
  toLowerCase : string -> string
}.

(** [s.split('')]. *)
Fixpoint split_chars (s : string) : list string :=
  match s with
  | EmptyString => []
  | String c s' => String c EmptyString :: split_chars s'
  end.

(** The characters of a string, as a list. *)
Fixpoint characters (s : string) : list ascii :=
  match s with
  | EmptyString => []
  | String c s' => c :: characters s'
  end.

(** What the environment is documented to do: the string generators
    return as many characters as asked, of the class asked;
    [arrayElement] returns an element of a non-empty array; the shuffle
    permutes the characters. *)
Record well_behaved (E : Env) : Prop := {
  alpha_upper : forall n s, (0 <= n)%Z ->
    String.length (fst (string_alpha E n true s)) = Z.to_nat n
    /\ forall c, In c (characters (fst (string_alpha E n true s))) ->
                 contains c "ABCDEFGHIJKLMNOPQRSTUVWXYZ" = true;
  alpha_lower : forall n s, (0 <= n)%Z ->
    String.length (fst (string_alpha E n false s)) = Z.to_nat n
    /\ forall c, In c (characters (fst (string_alpha E n false s))) ->
                 contains c "abcdefghijklmnopqrstuvwxyz" = true;
  numeric_digits : forall n s, (0 <= n)%Z ->
    String.length (fst (string_numeric E n s)) = Z.to_nat n
    /\ forall c, In c (characters (fst (string_numeric E n s))) ->
                 contains c "0123456789" = true;
  alphanumeric_length : forall n s, (0 <= n)%Z ->
    String.length (fst (string_alphanumeric E n s)) = Z.to_nat n;
  arrayElement_member : forall l s, l <> [] ->
    exists x s', arrayElement E l s = Some (x, s') /\ In x l;
  shuffle_permutes : forall str s,
    Permutation (characters (fst (shuffle E str s))) (characters str)
}.

(** [generateSecurePassword()]. *)
Definition generateSecurePassword (E : Env) (s : state E)
  : option (string * state E) :=
  let (uppercase, s1) := string_alpha E 2 true s in
  let (lowercase, s2) := string_alpha E 2 false s1 in
  let (numbers, s3) := string_numeric E 2 s2 in
  match arrayElement E ["@"; "#"; "$"; "%"; "&"; "*"] s3 with
  | None => None
  | Some (special, s4) =>
      let (additional, s5) := string_alphanumeric E 3 s4 in
      Some (shuffle E
              (uppercase ++ lowercase ++ numbers ++ special ++ additional) s5)
  end.

(** [{ ...a, ...b }]. *)
Definition spread (a b : gmap string Value) : gmap string Value := b ∪ a.

(** [generateUser(overrides?)]. *)
Definition generateUser (E : Env) (overrides : option (gmap string Value))
    (s : state E) : option (gmap string Value * state E) :=
  let (username, s1) := internet_username E s in
  match generateSecurePassword E s1 with
  | None => None
  | Some (password, s2) =>
      let (email, s3) := internet_email E s2 in
      let (firstName, s4) := person_firstName E s3 in
      let (lastName, s5) := person_lastName E s4 in
      let (phoneNumber, s6) := phone_number E s5 in
      Some (spread
              (<["username" := VString (toLowerCase E username)]>
                 (<["password" := VString password]>
                    (<["email" := VString (toLowerCase E email)]>
                       (<["firstName" := VString firstName]>
                          (<["lastName" := VString lastName]>
                             (<["phoneNumber" := VString phoneNumber]> ∅))))))
              (default ∅ overrides),
            s6)
  end.

(** [generateMinimalUser(overrides?)]: [delete user.phoneNumber]. *)
Definition generateMinimalUser (E : Env)
    (overrides : option (gmap string Value)) (s : state E)
  : option (gmap string Value * state E) :=
  match generateUser E overrides s with
  | None => None
  | Some (user, s') => Some (delete "phoneNumber" user, s')
  end.

Definition generateUserWithUsername (E : Env) (username : string)
    (s : state E) : option (gmap string Value * state E) :=
  generateUser E (Some (<["username" := VString username]> ∅)) s.

Definition generateUserWithEmail (E : Env) (email : string) (s : state E)
  : option (gmap string Value * state E) :=
  generateUser E (Some (<["email" := VString email]> ∅)) s.

Definition generateUserWithInvalidEmail (E : Env) (s : state E)
  : option (gmap string Value * state E) :=
  let (email, s1) := string_alphanumeric E 10 s in
  generateUser E (Some (<["email" := VString email]> ∅)) s1.

Definition generateUserWithWeakPassword (E : Env) (s : state E)
  : option (gmap string Value * state E) :=
  let (password, s1) := string_alphanumeric E 3 s in
  generateUser E (Some (<["password" := VString password]> ∅)) s1.

Definition generateUserWithEmptyFields : gmap string Value :=
  <["username" := VString EmptyString]>
    (<["password" := VString EmptyString]>
       (<["email" := VString EmptyString]>
          (<["firstName" := VString EmptyString]>
             (<["lastName" := VString EmptyString]>
                (<["phoneNumber" := VString EmptyString]> ∅))))).

(** The loop that fills the password of [generatePassword], with [n]
    iterations left. *)
Fixpoint fill (E : Env) (chars : string) (n : nat) (password : string)
    (s : state E) : option (string * state E) :=
  match n with
  | O => Some (password, s)
  | S n' =>
      match arrayElement E (split_chars chars) s with
      | None => None
      | Some (x, s') => fill E chars n' (password ++ x) s'
      end
  end.

(** [generatePassword(length, includeUppercase, includeLowercase,
    includeNumbers, includeSpecial)]. *)
Definition generatePassword (E : Env) (length : Z)
    (includeUppercase includeLowercase includeNumbers includeSpecial : bool)
    (s : state E) : option (string * state E) :=
  let '(chars, password, s) :=
    if includeUppercase then
      let (x, s') := string_alpha E 1 true s in
      ("ABCDEFGHIJKLMNOPQRSTUVWXYZ", x, s')
    else (EmptyString, EmptyString, s) in
  let '(chars, password, s) :=
    if includeLowercase then
      let (x, s') := string_alpha E 1 false s in
      (chars ++ "abcdefghijklmnopqrstuvwxyz", password ++ x, s')
    else (chars, password, s) in
  let '(chars, password, s) :=
    if includeNumbers then
      let (x, s') := string_numeric E 1 s in
      (chars ++ "0123456789", password ++ x, s')
    else (chars, password, s) in
  let after_special :=
    if includeSpecial then
      match arrayElement E ["@"; "#"; "$"; "%"; "&"; "*"; "!"] s with
      | None => None
      | Some (x, s') => Some (chars ++ "@#$%&*!", password ++ x, s')
      end
    else Some (chars, password, s) in
  match after_special with
  | None => None
  | Some (chars, password, s) =>
      let remainingLength := (length - Z.of_nat (String.length password))%Z in
      match fill E chars (Z.to_nat remainingLength) password s with
      | None => None
      | Some (password, s') => Some (shuffle E password s')
      end
  end.

(** The number of character classes asked for. *)
Definition classes (includeUppercase includeLowercase includeNumbers
    includeSpecial : bool) : nat :=
  Nat.b2n includeUppercase + Nat.b2n includeLowercase
  + Nat.b2n includeNumbers + Nat.b2n includeSpecial.

(** An environment that answers with fixed texts and leaves the order of
    the characters alone. *)
Definition fixed_env : Env := {|
  state := unit;
  internet_username := fun s => ("Ada.Lovelace", s);
  internet_email := fun s => ("Ada@Example.com", s);
  person_firstName := fun s => ("Ada", s);
  person_lastName := fun s => ("Lovelace", s);
  phone_number := fun s => ("555-0100", s);
  string_alpha := fun n upper s =>
    (string_of_list_ascii
       (repeat (if upper then "Q"%char else "q"%char) (Z.to_nat n)), s);
  string_numeric := fun n s =>
    (string_of_list_ascii (repeat "7"%char (Z.to_nat n)), s);
  string_alphanumeric := fun n s =>
    (string_of_list_ascii (repeat "z"%char (Z.to_nat n)), s);
  arrayElement := fun l s =>
    match l with
    | [] => None
    | x :: _ => Some (x, s)
    end;
  shuffle := fun str s => (str, s);
  toLowerCase := fun str => str
|}.

End UserFactory.

(** ** Lemmas on strings *)

Lemma append_assoc (a b c : string) : (a ++ b) ++ c = a ++ b ++ c.
Proof. induction a as [|x a IH]; simpl; [reflexivity | now rewrite IH]. Qed.

Lemma append_empty_r (a : string) : a ++ EmptyString = a.
Proof. induction a as [|x a IH]; simpl; [reflexivity | now rewrite IH]. Qed.

Lemma contains_app ch (a b : string) :
  contains ch (a ++ b) = contains ch a || contains ch b.
Proof.
  induction a as [|x a IH]; simpl; [reflexivity|].
  rewrite IH. now rewrite orb_assoc.
Qed.

Lemma last_char_app (a b : string) :
  last_char (a ++ b) = if is_empty b then last_char a else last_char b.
Proof.
  induction a as [|x a IH]; simpl.
  - destruct b; reflexivity.
  - rewrite IH. destruct b as [|y b]; simpl.
    + rewrite append_empty_r. reflexivity.
    + destruct a; reflexivity.
Qed.

Lemma trailing_slash_app (a b : string) :
  trailing_slash (a ++ b)
  = if is_empty b then trailing_slash a else trailing_slash b.
Proof. unfold trailing_slash. rewrite last_char_app. now destruct b. Qed.

Lemma starts_with_app (a b : string) : starts_with a (a ++ b) = true.
Proof.
  induction a as [|x a IH]; simpl; [reflexivity|].
  now rewrite Ascii.eqb_refl, IH.
Qed.

Lemma is_empty_app (a b : string) :
  is_empty (a ++ b) = is_empty a && is_empty b.
Proof. now destruct a. Qed.

(** Decimal numerals are not empty and consist of digits and a sign. *)
Lemma string_of_uint_plain (d : Decimal.uint) :
  contains "?" (NilEmpty.string_of_uint d) = false
  /\ (last_char (NilEmpty.string_of_uint d) <> Some "/"%char).
Proof.
  induction d; simpl; try (split; [reflexivity | discriminate]);
    destruct IHd as [Hc Hl]; (split; [exact Hc|]);
    destruct (NilEmpty.string_of_uint d); try discriminate; exact Hl.
Qed.

Lemma ToString_PNum_plain (n : Z) : plain_segment (ToString (PNum n)) = true.
Proof.
  unfold plain_segment, has_query, trailing_slash, ToString.
  assert (U : forall d, let s := NilZero.string_of_uint d in
            is_empty s = false /\ contains "?" s = false
            /\ last_char s <> Some "/"%char).
  { intros d. destruct (string_of_uint_plain d) as [Hc Hl].
    destruct d; simpl in *; repeat split; try discriminate; auto. }
  assert (S : forall d, let s := NilZero.string_of_int d in
            is_empty s = false /\ contains "?" s = false
            /\ last_char s <> Some "/"%char).
  { intros [d|d]; [apply U|]. destruct (U d) as (He & Hc & Hl). simpl.
    repeat split; [exact Hc|].
    destruct (NilZero.string_of_uint d); [discriminate He | exact Hl]. }
  destruct (S (Z.to_int n)) as (He & Hc & Hl).
  rewrite He, Hc. simpl.
  destruct (last_char _) as [a|]; [|reflexivity].
  destruct (Ascii.eqb_spec a "/"); [subst; contradiction | reflexivity].
Qed.

(** ** Equations of the builders *)

Lemma Lazy_LittleBugShop_run (baseUrl : option string) (w : Process.World) :
  Lazy.LittleBugShop baseUrl w
  = (Lazy.UrlBuilder.mk
       (JS.or baseUrl (ApiConfig.baseUrl (Process.config w))), w).
Proof. reflexivity. Qed.

Lemma Eager_LittleBugShop_run (w : Process.World) :
  Eager.LittleBugShop w
  = ({| Eager.BaseUrl := JS.interpolate (Process.env w !! "BASE_URL");
        Eager.Controllers :=
          Eager.createLittleBugShopEndpoints
            (buildUrl_of (JS.interpolate (Process.env w !! "BASE_URL"))) |},
     w).
Proof. reflexivity. Qed.

Lemma Lazy_eval_run (baseUrl : option string) (c : Call) (w : Process.World) :
  Lazy_eval baseUrl c w
  = (Lazy.url (Lazy.UrlBuilder.mk (Lazy_base baseUrl w)) c, w).
Proof. reflexivity. Qed.

Lemma Eager_eval_run (c : Call) (w : Process.World) :
  Eager_eval c w
  = (Eager.url
       (Eager.createLittleBugShopEndpoints (buildUrl_of (Eager_base w))) c,
     w).
Proof. reflexivity. Qed.

(** A booted process is one in which [api.config.ts] has been loaded. *)
Lemma load_config_boot (w : Process.World) :
  snd (Process.load_config w) = Process.boot (Process.env w).
Proof. reflexivity. Qed.

(** The object-literal builder applies [buildUrl] to the path, once. *)
Lemma Eager_url_path (buildUrl : string -> string) (c : Call) :
  Eager.url (Eager.createLittleBugShopEndpoints buildUrl) c
  = buildUrl (Eager.path c).
Proof. destruct c; reflexivity. Qed.

(** The class based builder concatenates base, ["/api"], the group root
    and the rest, which is the same path. *)
Lemma Lazy_url_path (b : Lazy.UrlBuilder.t) (c : Call) :
  Lazy.url b c = Lazy.UrlBuilder.baseUrl b ++ "/api" ++ Eager.path c.
Proof.
  destruct b as [base].
  destruct c; cbn; rewrite ?append_assoc; reflexivity.
Qed.

Lemma builders_agree (base : string) (c : Call) :
  Eager.url (Eager.createLittleBugShopEndpoints (buildUrl_of base)) c
  = Lazy.url (Lazy.UrlBuilder.mk base) c.
Proof. now rewrite Eager_url_path, Lazy_url_path. Qed.

Lemma or_not_empty (a : option string) (d : string) :
  is_empty d = false -> is_empty (JS.or a d) = false.
Proof.
  intros Hd. destruct a as [s|]; simpl; [|exact Hd].
  destruct s; simpl; [exact Hd | reflexivity].
Qed.

Lemma or_truthy (a : option string) (d : string) :
  JS.truthy a = false -> JS.or a d = d.
Proof.
  destruct a as [s|]; simpl; [|reflexivity].
  destruct (String.eqb s EmptyString); [reflexivity | discriminate].
Qed.

Lemma or_override (s d : string) :
  s <> EmptyString -> JS.or (Some s) d = s.
Proof.
  intros Hs. simpl. destruct (String.eqb_spec s EmptyString);
    [contradiction | reflexivity].
Qed.

(** ** Resolution of the base URL *)

(** The class based builder: without a truthy argument the base is the one
    [config] took from [BASE_URL], or the default when that is unset or
    empty. *)
Lemma Lazy_base_fallback (e : ProcessEnv) (baseUrl : option string) :
  JS.truthy baseUrl = false ->
  Lazy_base baseUrl (Process.boot e)
  = match e !! "BASE_URL" with
    | Some s => if is_empty s then ApiConfig.defaultBaseUrl else s
    | None => ApiConfig.defaultBaseUrl
    end.
Proof.
  intros Hf. unfold Lazy_base. rewrite Lazy_LittleBugShop_run. simpl.
  rewrite (or_truthy _ _ Hf).
  destruct (e !! "BASE_URL") as [s|]; [|reflexivity].
  now destruct s.
Qed.

(** The class based builder never resolves an empty base once [config] is
    loaded. *)
Lemma Lazy_base_not_empty (e : ProcessEnv) (baseUrl : option string) :
  is_empty (Lazy_base baseUrl (Process.boot e)) = false.
Proof.
  unfold Lazy_base. rewrite Lazy_LittleBugShop_run. simpl.
  apply or_not_empty, or_not_empty. reflexivity.
Qed.

(** C1, on the object-literal builder: [LittleBugShop()] does not fall back
    to the default base.  With [BASE_URL] unset [Users.register] is
    ["undefined/api/Users/register"], where the comment above the function
    announces ["http://localhost:5052/api/Users/register"] and the class
    based builder returns it; with [BASE_URL] set to the empty text the base
    is empty. *)
Theorem Eager_base_has_no_fallback :
  fst (Eager_eval Users_register (Process.boot unset_env))
  = "undefined/api/Users/register"
  /\ fst (Lazy_eval None Users_register (Process.boot unset_env))
     = "http://localhost:5052/api/Users/register"
  /\ fst (Eager_eval Users_register
            (Process.boot (<["BASE_URL" := EmptyString]> unset_env)))
     = "/api/Users/register"
  /\ Eager_base (Process.boot (<["BASE_URL" := EmptyString]> unset_env))
     = EmptyString.
Proof. repeat split; vm_compute; reflexivity. Qed.

(** ** Overriding the base URL *)

(** C2: with the override ["https://staging.example.com"] the class based
    builder's [Users.login] is
    ["https://staging.example.com/api/Users/login"]; and whatever the
    configuration, a non-empty base given by the caller is the prefix of the
    URL of every operation. *)
Theorem Lazy_override_is_prefix :
  (forall w : Process.World,
     fst (Lazy_eval (Some "https://staging.example.com") Users_login w)
     = "https://staging.example.com/api/Users/login")
  /\ (forall (base : string) (c : Call) (w : Process.World),
        base <> EmptyString ->
        Lazy_base (Some base) w = base
        /\ fst (Lazy_eval (Some base) c w) = base ++ "/api" ++ Eager.path c
        /\ starts_with base (fst (Lazy_eval (Some base) c w)) = true).
Proof.
  split; [reflexivity|].
  intros base c w Hb.
  assert (Hbase : Lazy_base (Some base) w = base).
  { unfold Lazy_base. rewrite Lazy_LittleBugShop_run. simpl fst.
    now apply or_override. }
  rewrite Lazy_eval_run, Hbase, Lazy_url_path. simpl fst.
  repeat split. apply starts_with_app.
Qed.

Lemma Lazy_override_is_prefix_witness :
  "https://production.com" <> EmptyString
  /\ fst (Lazy_eval (Some "https://production.com") Users_login
            (Process.boot unset_env))
     = "https://production.com/api/Users/login".
Proof.
  split; [discriminate|].
  exact (proj1 (proj2 (proj2 Lazy_override_is_prefix
                         "https://production.com" Users_login
                         (Process.boot unset_env)
                         ltac:(discriminate)))).
Defined.

(** ** The two builders against each other *)

(** C3: for every base URL and every operation with its parameters, the
    object-literal builder and the class based builder yield the same
    string; so do the two top-level functions whenever they resolve the
    same base. *)
Theorem eager_and_lazy_same_strings (c : Call) :
  (forall base : string,
     Eager.url (Eager.createLittleBugShopEndpoints (buildUrl_of base)) c
     = Lazy.url (Lazy.UrlBuilder.mk base) c)
  /\ (forall w : Process.World,
        fst (Eager_eval c w)
        = Lazy.url (Lazy.UrlBuilder.mk (Eager_base w)) c)
  /\ (forall (baseUrl : option string) (w : Process.World),
        fst (Lazy_eval baseUrl c w)
        = Eager.url
            (Eager.createLittleBugShopEndpoints
               (buildUrl_of (Lazy_base baseUrl w))) c).
Proof.
  repeat split.
  - intros base. apply builders_agree.
  - intros w. rewrite Eager_eval_run. apply builders_agree.
  - intros baseUrl w. rewrite Lazy_eval_run. symmetry. apply builders_agree.
Qed.

(** ** Prefix and casing of the groups *)

Lemma path_rooted (c : Call) : rooted c (Eager.path c) = true.
Proof. destruct c; reflexivity. Qed.

(** C4 as stated fails: on none of the six groups do the two builders
    disagree, for any base URL; for instance both give [Profile.get] under
    the base and ["/api"]. *)
Lemma six_groups_do_not_disagree :
  ~ (exists c : Call, In (group c) six_groups /\ variants_disagree c)
  /\ Eager.url
       (Eager.createLittleBugShopEndpoints
          (buildUrl_of "http://localhost:5052")) Profile_get
     = "http://localhost:5052/api/users/profile"
  /\ Lazy.url (Lazy.UrlBuilder.mk "http://localhost:5052") Profile_get
     = "http://localhost:5052/api/users/profile".
Proof.
  split; [|split; reflexivity].
  intros (c & _ & base & Hne). apply Hne, builders_agree.
Qed.

(** C4, amended: both builders put every group, the six included, under
    base and ["/api"], and yield the same path; the roots of the six groups
    are, in both, those of [roots]: lowercase for Profile, PaymentMethods
    and Payments, capitalised for Wishlist and Coupons, and
    ["/products/"], ["/reviews/"] or ["/admin/reviews"] for Reviews. *)
Theorem groups_share_prefix_and_roots (base : string) (c : Call) :
  Eager.url (Eager.createLittleBugShopEndpoints (buildUrl_of base)) c
  = base ++ "/api" ++ Eager.path c
  /\ Lazy.url (Lazy.UrlBuilder.mk base) c = base ++ "/api" ++ Eager.path c
  /\ rooted c (Eager.path c) = true
  /\ ~ variants_disagree c.
Proof.
  repeat split.
  - apply Eager_url_path.
  - apply Lazy_url_path.
  - apply path_rooted.
  - intros (b & Hne). apply Hne, builders_agree.
Qed.

(** ** Substitution of the parameters *)

(** C5: [Reviews.getById] substitutes [productId] and then [reviewId]; on
    the default base, [Reviews.getById(10, 5)] is
    ["http://localhost:5052/api/products/10/Reviews/5"]. *)
Theorem Reviews_getById_in_order (base : string) (productId reviewId : PathParam) :
  Lazy.url (Lazy.UrlBuilder.mk base) (Reviews_getById productId reviewId)
  = base ++ "/api/products/" ++ ToString productId
         ++ "/Reviews/" ++ ToString reviewId
  /\ Eager.url (Eager.createLittleBugShopEndpoints (buildUrl_of base))
       (Reviews_getById productId reviewId)
     = base ++ "/api/products/" ++ ToString productId
            ++ "/Reviews/" ++ ToString reviewId
  /\ fst (Lazy_eval None (Reviews_getById (PNum 10) (PNum 5))
            (Process.boot unset_env))
     = "http://localhost:5052/api/products/10/Reviews/5"
  /\ fst (Eager_eval (Reviews_getById (PNum 10) (PNum 5))
            (Process.boot (<["BASE_URL" := "http://localhost:5052"]> unset_env)))
     = "http://localhost:5052/api/products/10/Reviews/5".
Proof.
  repeat split; try (vm_compute; reflexivity).
  cbn. rewrite !append_assoc. reflexivity.
Qed.

(** C6: [Coupons.validate] appends the code as it is, whatever its
    characters; on the default base, [Coupons.validate("CODE123")] is
    ["http://localhost:5052/api/Coupons/validate/CODE123"]. *)
Theorem Coupons_validate_verbatim (base code : string) :
  Lazy.url (Lazy.UrlBuilder.mk base) (Coupons_validate code)
  = base ++ "/api/Coupons/validate/" ++ code
  /\ Eager.url (Eager.createLittleBugShopEndpoints (buildUrl_of base))
       (Coupons_validate code)
     = base ++ "/api/Coupons/validate/" ++ code
  /\ fst (Lazy_eval None (Coupons_validate "CODE123") (Process.boot unset_env))
     = "http://localhost:5052/api/Coupons/validate/CODE123"
  /\ fst (Lazy_eval None (Coupons_validate "10% off/a b?x")
            (Process.boot unset_env))
     = "http://localhost:5052/api/Coupons/validate/10% off/a b?x".
Proof.
  repeat split; try (vm_compute; reflexivity).
  cbn. rewrite !append_assoc. reflexivity.
Qed.

(** ** The path does not depend on the base *)

(** C7: for every operation with its parameters there is one suffix that
    follows the base in the URL, whatever the base: on both builders, for a
    base handed in directly and for the base each top-level function
    resolves. *)
Theorem suffix_independent_of_base (c : Call) :
  exists suffix : string,
    (forall base, Lazy.url (Lazy.UrlBuilder.mk base) c = base ++ suffix)
    /\ (forall base,
          Eager.url (Eager.createLittleBugShopEndpoints (buildUrl_of base)) c
          = base ++ suffix)
    /\ (forall baseUrl w,
          fst (Lazy_eval baseUrl c w) = Lazy_base baseUrl w ++ suffix)
    /\ (forall w, fst (Eager_eval c w) = Eager_base w ++ suffix).
Proof.
  exists ("/api" ++ Eager.path c). repeat split.
  - intros base. apply Lazy_url_path.
  - intros base. apply Eager_url_path.
  - intros baseUrl w. rewrite Lazy_eval_run. apply Lazy_url_path.
  - intros w. rewrite Eager_eval_run. apply Eager_url_path.
Qed.

(** ** Trailing slash and query string *)

Lemma plain_segment_spec (s : string) :
  plain_segment s = true ->
  is_empty s = false /\ trailing_slash s = false /\ contains "?" s = false.
Proof.
  unfold plain_segment, has_query. intros H.
  apply andb_prop in H as [H Hq]. apply andb_prop in H as [He Ht].
  now rewrite negb_true_iff in He, Ht, Hq.
Qed.

#[local] Arguments String.append : simpl never.

Lemma path_plain (c : Call) :
  forallb plain_segment (args c) = true ->
  is_empty (Eager.path c) = false
  /\ trailing_slash (Eager.path c) = false
  /\ has_query (Eager.path c) = false.
Proof.
  intros H. unfold has_query.
  destruct c; cbn [args forallb] in H;
    repeat match goal with
      | H : _ && _ = true |- _ => apply andb_prop in H as [? ?]
      end;
    repeat match goal with
      | H : plain_segment _ = true |- _ =>
          apply plain_segment_spec in H as (? & ? & ?)
      end;
    repeat match goal with
      | p : PathParam |- _ =>
          let s := fresh "s" in set (s := ToString p) in *; clearbody s; clear p
      end;
    cbn.
  all: rewrite ?trailing_slash_app, ?contains_app, ?is_empty_app.
  all: repeat match goal with H : _ = false |- _ => rewrite H; clear H end.
  all: cbn.
  all: repeat split; reflexivity.
Qed.

(** C8 as stated fails: the parameters are appended as they are.  An empty
    id leaves the slash that precedes it at the end of the URL, and a code
    that contains ["?"] puts it in the URL. *)
Lemma empty_id_leaves_trailing_slash :
  Lazy.url (Lazy.UrlBuilder.mk "http://localhost:5052")
    (Users_getById (PStr EmptyString))
  = "http://localhost:5052/api/Users/"
  /\ Eager.url
       (Eager.createLittleBugShopEndpoints
          (buildUrl_of "http://localhost:5052"))
       (Users_getById (PStr EmptyString))
     = "http://localhost:5052/api/Users/"
  /\ trailing_slash "http://localhost:5052/api/Users/" = true
  /\ Lazy.url (Lazy.UrlBuilder.mk "http://localhost:5052")
       (Coupons_validate "SAVE?x=1")
     = "http://localhost:5052/api/Coupons/validate/SAVE?x=1"
  /\ has_query "http://localhost:5052/api/Coupons/validate/SAVE?x=1" = true.
Proof. repeat split; vm_compute; reflexivity. Qed.

(** C8, amended: when the base URL contains no ["?"] and every parameter
    is substituted by a text that is not empty, does not end in ["/"] and
    contains no ["?"], the URL of every operation, on both builders, has no
    trailing slash and no query string.  Integer ids are such
    parameters ([ToString_PNum_plain]). *)
Theorem no_trailing_slash_no_query (base : string) (c : Call) :
  has_query base = false ->
  forallb plain_segment (args c) = true ->
  trailing_slash (Lazy.url (Lazy.UrlBuilder.mk base) c) = false
  /\ has_query (Lazy.url (Lazy.UrlBuilder.mk base) c) = false
  /\ trailing_slash
       (Eager.url (Eager.createLittleBugShopEndpoints (buildUrl_of base)) c)
     = false
  /\ has_query
       (Eager.url (Eager.createLittleBugShopEndpoints (buildUrl_of base)) c)
     = false.
Proof.
  intros Hb Hargs.
  destruct (path_plain c Hargs) as (He & Ht & Hq).
  rewrite builders_agree, Lazy_url_path. cbn [Lazy.UrlBuilder.baseUrl].
  assert (T : trailing_slash (base ++ "/api" ++ Eager.path c) = false).
  { rewrite !trailing_slash_app, is_empty_app, He, andb_false_r. exact Ht. }
  assert (Q : has_query (base ++ "/api" ++ Eager.path c) = false).
  { unfold has_query in *. rewrite !contains_app, Hb, Hq. reflexivity. }
  repeat split; assumption.
Qed.

Lemma no_trailing_slash_no_query_witness :
  has_query "http://localhost:5052" = false
  /\ forallb plain_segment (args (Reviews_getById (PNum 10) (PNum 5))) = true
  /\ trailing_slash
       (Lazy.url (Lazy.UrlBuilder.mk "http://localhost:5052")
          (Reviews_getById (PNum 10) (PNum 5))) = false
  /\ has_query
       (Lazy.url (Lazy.UrlBuilder.mk "http://localhost:5052")
          (Reviews_getById (PNum 10) (PNum 5))) = false.
Proof.
  split; [reflexivity|]. split; [reflexivity|].
  pose proof (no_trailing_slash_no_query "http://localhost:5052"
                (Reviews_getById (PNum 10) (PNum 5))
                eq_refl eq_refl) as (T & Q & _).
  split; [exact T | exact Q].
Defined.

(** ** Determinism *)

(** C9: evaluating an operation changes nothing in the process, so that a
    second evaluation returns the same string as the first; and the string
    is a function of the resolved base URL, the operation and its
    parameters alone: two evaluations, in any two states, that resolve the
    same base return the same string.  This holds on both builders, and for
    the accessors without parameters in particular. *)
Theorem registry_is_deterministic (c : Call) (w w' : Process.World) :
  (forall baseUrl,
     snd (Lazy_eval baseUrl c w) = w
     /\ Lazy_eval baseUrl c (snd (Lazy_eval baseUrl c w))
        = Lazy_eval baseUrl c w)
  /\ (snd (Eager_eval c w) = w
      /\ Eager_eval c (snd (Eager_eval c w)) = Eager_eval c w)
  /\ (forall baseUrl baseUrl',
        Lazy_base baseUrl w = Lazy_base baseUrl' w' ->
        fst (Lazy_eval baseUrl c w) = fst (Lazy_eval baseUrl' c w'))
  /\ (Eager_base w = Eager_base w' ->
      fst (Eager_eval c w) = fst (Eager_eval c w')).
Proof.
  repeat split.
  - intros baseUrl baseUrl' Hb. rewrite !Lazy_eval_run. cbn [fst].
    now rewrite Hb.
  - intros Hb. rewrite !Eager_eval_run. cbn [fst]. now rewrite Hb.
Qed.

Lemma registry_is_deterministic_witness :
  Lazy_base None (Process.boot unset_env)
  = Lazy_base (Some "http://localhost:5052")
      (Process.boot (<["BASE_URL" := "https://staging.example.com"]> unset_env))
  /\ fst (Lazy_eval None Users_register (Process.boot unset_env))
     = fst (Lazy_eval (Some "http://localhost:5052") Users_register
              (Process.boot
                 (<["BASE_URL" := "https://staging.example.com"]> unset_env)))
  /\ Eager_base (Process.boot (<["BASE_URL" := "http://localhost:5052"]> unset_env))
     = Eager_base
         {| Process.env := <["BASE_URL" := "http://localhost:5052"]> unset_env;
            Process.config := ApiConfig.config unset_env |}
  /\ fst (Eager_eval Users_register
            (Process.boot (<["BASE_URL" := "http://localhost:5052"]> unset_env)))
     = fst (Eager_eval Users_register
              {| Process.env := <["BASE_URL" := "http://localhost:5052"]> unset_env;
                 Process.config := ApiConfig.config unset_env |}).
Proof.
  split; [reflexivity|]. split.
  - exact (proj1 (proj2 (proj2
             (registry_is_deterministic Users_register
                (Process.boot unset_env)
                (Process.boot
                   (<["BASE_URL" := "https://staging.example.com"]> unset_env)))))
             None (Some "http://localhost:5052") ltac:(vm_compute; reflexivity)).
  - split; [reflexivity|].
    exact (proj2 (proj2 (proj2
             (registry_is_deterministic Users_register
                (Process.boot
                   (<["BASE_URL" := "http://localhost:5052"]> unset_env))
                {| Process.env :=
                     <["BASE_URL" := "http://localhost:5052"]> unset_env;
                   Process.config := ApiConfig.config unset_env |})))
             ltac:(vm_compute; reflexivity)).
Defined.

(** ** The object-literal builder without [BASE_URL] *)

(** C10: the object-literal [LittleBugShop] has no parameter: what it
    returns is determined by [process.env.BASE_URL] alone, whose
    interpolation is its base.  When the variable is unset the base is the
    text ["undefined"] and every URL starts with it; [Users.register] is
    ["undefined/api/Users/register"], not a URL on the default base. *)
Theorem Eager_unset_env_gives_undefined (c : Call) (w : Process.World) :
  Eager_base w = JS.interpolate (Process.env w !! "BASE_URL")
  /\ (forall w' : Process.World,
        Process.env w' !! "BASE_URL" = Process.env w !! "BASE_URL" ->
        fst (Eager.LittleBugShop w') = fst (Eager.LittleBugShop w))
  /\ (Process.env w !! "BASE_URL" = None ->
      Eager_base w = "undefined"
      /\ fst (Eager_eval c w) = "undefined" ++ "/api" ++ Eager.path c
      /\ starts_with "undefined" (fst (Eager_eval c w)) = true
      /\ fst (Eager_eval Users_register w) = "undefined/api/Users/register"
      /\ starts_with ApiConfig.defaultBaseUrl (fst (Eager_eval c w)) = false).
Proof.
  split; [reflexivity|]. split.
  - intros w' He. rewrite !Eager_LittleBugShop_run. cbn [fst]. now rewrite He.
  - intros Hn.
    assert (Hb : Eager_base w = "undefined").
    { unfold Eager_base. rewrite Eager_LittleBugShop_run. cbn [fst Eager.BaseUrl].
      now rewrite Hn. }
    rewrite !Eager_eval_run, !Eager_url_path, Hb. cbn [fst].
    repeat split; reflexivity.
Qed.

Lemma Eager_unset_env_gives_undefined_witness :
  Process.env (Process.boot unset_env) !! "BASE_URL" = None
  /\ fst (Eager_eval (Users_getById (PNum 123)) (Process.boot unset_env))
     = "undefined/api/Users/123".
Proof.
  split; [reflexivity|].
  exact (proj1 (proj2
           (proj2 (proj2
              (Eager_unset_env_gives_undefined (Users_getById (PNum 123))
                 (Process.boot unset_env))) eq_refl))).
Defined.

(** ** Further properties of the registry *)

#[local] Arguments String.append !s1 s2 : simpl nomatch.

Lemma append_length (a b : string) :
  String.length (a ++ b) = String.length a + String.length b.
Proof. induction a as [|x a IH]; simpl; [reflexivity | now rewrite IH]. Qed.

Lemma append_inj_l (a b c : string) : a ++ b = a ++ c -> b = c.
Proof.
  induction a as [|x a IH]; simpl; intros H; [exact H|].
  injection H as H. now apply IH.
Qed.

Lemma append_inj_r (a b c : string) : a ++ c = b ++ c -> a = b.
Proof.
  revert b. induction a as [|x a IH]; intros b H.
  - destruct b as [|y b]; [reflexivity|].
    apply (f_equal String.length) in H. simpl in H.
    rewrite append_length in H. lia.
  - destruct b as [|y b].
    + apply (f_equal String.length) in H. simpl in H.
      rewrite append_length in H. lia.
    + simpl in H. injection H as Hxy H. subst y. f_equal. now apply IH.
Qed.

Lemma infix_of_starts (p s : string) :
  starts_with p s = true -> infix_of p s = true.
Proof. intros H. destruct s; simpl; rewrite H; reflexivity. Qed.

Lemma infix_of_app_r (p a s : string) :
  infix_of p s = true -> infix_of p (a ++ s) = true.
Proof.
  intros H. induction a as [|x a IH]; simpl; [exact H|].
  rewrite IH. apply orb_true_r.
Qed.

(** Up to the first slash, two texts that agree are split alike. *)
Lemma split_at_slash (s s' r r' : string) :
  slash_free s = true -> slash_free s' = true ->
  s ++ String "/" r = s' ++ String "/" r' -> s = s' /\ r = r'.
Proof.
  unfold slash_free. revert s'.
  induction s as [|x s IH]; intros s' Hs Hs' H.
  - destruct s' as [|y s']; simpl in H.
    + injection H as H. now split.
    + injection H as Hy _. subst y. simpl in Hs'. discriminate.
  - destruct s' as [|y s']; simpl in H.
    + injection H as Hx _. subst x. simpl in Hs. discriminate.
    + injection H as Hxy H. subst y. simpl in Hs, Hs'.
      rewrite negb_orb in Hs, Hs'.
      apply andb_prop in Hs as [_ Hs]. apply andb_prop in Hs' as [_ Hs'].
      destruct (IH s' Hs Hs' H) as [-> ->]. now split.
Qed.

(** A decimal numeral has no slash and determines its number. *)
Lemma ToString_PNum_slash_free (n : Z) :
  slash_free (ToString (PNum n)) = true.
Proof.
  unfold slash_free, ToString.
  assert (U : forall d, contains "/" (NilEmpty.string_of_uint d) = false)
    by (induction d; simpl; auto).
  assert (V : forall d, contains "/" (NilZero.string_of_uint d) = false)
    by (intros d; destruct d; simpl; auto; apply U).
  destruct (Z.to_int n) as [d|d]; simpl; now rewrite V.
Qed.

Lemma to_uint_not_nil (p : positive) : Pos.to_uint p <> Decimal.Nil.
Proof.
  intros H. apply (f_equal Pos.of_uint) in H.
  rewrite DecimalPos.Unsigned.of_to in H. discriminate.
Qed.

Lemma ToString_PNum_inj (a b : Z) :
  ToString (PNum a) = ToString (PNum b) -> a = b.
Proof.
  unfold ToString. intros H. apply DecimalZ.to_int_inj.
  assert (N : forall z, Z.to_int z <> Decimal.Pos Decimal.Nil
                        /\ Z.to_int z <> Decimal.Neg Decimal.Nil).
  { intros [|p|p]; simpl; split; try discriminate;
      intros E; injection E as E; now apply to_uint_not_nil in E. }
  apply (f_equal NilZero.int_of_string) in H.
  rewrite !NilZero.isi in H by apply N.
  now injection H.
Qed.

Ltac strip_literal H :=
  repeat match type of H with
    | String _ _ = String _ _ => injection H as H
    end.

(** With the operation fixed and no slash in a first of two parameters,
    the path determines the parameter texts. *)
Lemma path_determines_args (c c' : Call) :
  operation c = operation c' ->
  forallb slash_free (removelast (args c)) = true ->
  forallb slash_free (removelast (args c')) = true ->
  Eager.path c = Eager.path c' -> args c = args c'.
Proof.
  intros Hop Hs Hs' H.
  destruct c; destruct c'; try discriminate Hop; clear Hop;
    try reflexivity;
    cbn in H; strip_literal H;
    cbn [args removelast forallb] in Hs, Hs' |- *.
  all: try (apply append_inj_r in H; now rewrite H).
  all: try (now rewrite H).
  all: rewrite andb_true_r in Hs, Hs';
    destruct (split_at_slash _ _ _ _ Hs Hs' H) as [-> H2];
    strip_literal H2;
    try apply append_inj_r in H2; now rewrite H2.
Qed.

(** X1: once [config] is loaded the class based builder takes its base
    from the argument when that is not empty, else from [BASE_URL] when
    that is set and not empty, else the default; the base is never
    empty. *)
Theorem Lazy_base_precedence (e : ProcessEnv) (baseUrl : option string) :
  Lazy_base baseUrl (Process.boot e)
  = match baseUrl, e !! "BASE_URL" with
    | Some (String a s), _ => String a s
    | _, Some (String a s) => String a s
    | _, _ => "http://localhost:5052"
    end
  /\ is_empty (Lazy_base baseUrl (Process.boot e)) = false.
Proof.
  split; [|apply Lazy_base_not_empty].
  unfold Lazy_base. rewrite Lazy_LittleBugShop_run. cbn.
  destruct baseUrl as [[|a s]|]; destruct (e !! "BASE_URL") as [[|b t]|];
    reflexivity.
Qed.

(** X2: the URL of an operation determines the base: on either builder two
    bases that give one operation the same URL are equal. *)
Theorem url_determines_base (c : Call) (base1 base2 : string) :
  (Lazy.url (Lazy.UrlBuilder.mk base1) c
   = Lazy.url (Lazy.UrlBuilder.mk base2) c -> base1 = base2)
  /\ (Eager.url (Eager.createLittleBugShopEndpoints (buildUrl_of base1)) c
      = Eager.url (Eager.createLittleBugShopEndpoints (buildUrl_of base2)) c
      -> base1 = base2).
Proof.
  rewrite !builders_agree, !Lazy_url_path. cbn [Lazy.UrlBuilder.baseUrl].
  split; apply append_inj_r.
Qed.

Lemma url_determines_base_witness :
  Lazy.url (Lazy.UrlBuilder.mk "http://localhost:5052") Cart_get
  = Lazy.url (Lazy.UrlBuilder.mk ("http://localhost" ++ ":5052")) Cart_get
  /\ "http://localhost:5052" = "http://localhost" ++ ":5052".
Proof.
  split; [reflexivity|].
  exact (proj1 (url_determines_base Cart_get "http://localhost:5052"
                  ("http://localhost" ++ ":5052")) eq_refl).
Defined.

(** X3: every operation of a nested [admin] object has ["/admin/"] in its
    URL, whatever the base and the parameters; an operation without
    parameters outside these objects has not, in its path. *)
Theorem admin_urls_contain_admin (base : string) (c : Call) :
  (is_admin c = true ->
   infix_of "/admin/" (Lazy.url (Lazy.UrlBuilder.mk base) c) = true
   /\ infix_of "/admin/"
        (Eager.url (Eager.createLittleBugShopEndpoints (buildUrl_of base)) c)
      = true)
  /\ (is_admin c = false -> args c = [] ->
      infix_of "/admin/" (Eager.path c) = false).
Proof.
  split.
  - intros Ha. rewrite builders_agree, Lazy_url_path.
    cbn [Lazy.UrlBuilder.baseUrl].
    assert (P : infix_of "/admin/" (Eager.path c) = true)
      by (destruct c; try discriminate Ha; reflexivity).
    split; apply infix_of_app_r; apply (infix_of_app_r _ "/api"); exact P.
  - intros Ha Hn. destruct c; try discriminate Ha; try discriminate Hn;
      reflexivity.
Qed.

Lemma admin_urls_contain_admin_witness :
  is_admin (Coupons_admin_usage (PNum 7)) = true
  /\ infix_of "/admin/"
       (Lazy.url (Lazy.UrlBuilder.mk "http://localhost:5052")
          (Coupons_admin_usage (PNum 7))) = true
  /\ is_admin Orders_pending = false
  /\ infix_of "/admin/" (Eager.path Orders_pending) = false.
Proof.
  split; [reflexivity|]. split.
  - exact (proj1 (proj1 (admin_urls_contain_admin "http://localhost:5052"
                           (Coupons_admin_usage (PNum 7))) eq_refl)).
  - split; [reflexivity|].
    exact (proj2 (admin_urls_contain_admin "http://localhost:5052"
                    Orders_pending) eq_refl eq_refl).
Defined.

(** X4: for one operation and one base the URL determines the texts of the
    parameters, provided the first of two parameters contains no slash:
    two calls of the operation with the same URL have the same parameter
    texts. *)
Theorem url_determines_parameters (base : string) (c c' : Call) :
  operation c = operation c' ->
  forallb slash_free (removelast (args c)) = true ->
  forallb slash_free (removelast (args c')) = true ->
  Lazy.url (Lazy.UrlBuilder.mk base) c = Lazy.url (Lazy.UrlBuilder.mk base) c' ->
  args c = args c'.
Proof.
  intros Hop Hs Hs' H. rewrite !Lazy_url_path in H.
  cbn [Lazy.UrlBuilder.baseUrl] in H.
  apply append_inj_l, append_inj_l in H.
  now apply path_determines_args.
Qed.

Lemma url_determines_parameters_witness :
  operation (Products_stock (PNum 12)) = operation (Products_stock (PStr "12"))
  /\ Lazy.url (Lazy.UrlBuilder.mk "http://localhost:5052")
       (Products_stock (PNum 12))
     = Lazy.url (Lazy.UrlBuilder.mk "http://localhost:5052")
         (Products_stock (PStr "12"))
  /\ args (Products_stock (PNum 12)) = args (Products_stock (PStr "12")).
Proof.
  split; [reflexivity|]. split; [reflexivity|].
  exact (url_determines_parameters "http://localhost:5052"
           (Products_stock (PNum 12)) (Products_stock (PStr "12"))
           eq_refl eq_refl eq_refl eq_refl).
Defined.

(** X5: integer ids never collide: two calls of one operation whose
    parameters are the integers [ids] and [ids'] have the same URL only if
    [ids = ids']. *)
Theorem integer_ids_never_collide (base : string) (c c' : Call)
    (ids ids' : list Z) :
  operation c = operation c' ->
  args c = map (fun n => ToString (PNum n)) ids ->
  args c' = map (fun n => ToString (PNum n)) ids' ->
  Eager.url (Eager.createLittleBugShopEndpoints (buildUrl_of base)) c
  = Eager.url (Eager.createLittleBugShopEndpoints (buildUrl_of base)) c' ->
  ids = ids'.
Proof.
  intros Hop Ha Ha' H. rewrite !Eager_url_path in H. unfold buildUrl_of in H.
  apply append_inj_l, append_inj_l in H.
  assert (F : forall l : list Z,
            forallb slash_free
              (removelast (map (fun n => ToString (PNum n)) l)) = true).
  { intros l. induction l as [|n [|m l] IH]; try reflexivity.
    change (slash_free (ToString (PNum n))
            && forallb slash_free
                 (removelast (map (fun n => ToString (PNum n)) (m :: l)))
            = true).
    now rewrite ToString_PNum_slash_free, IH. }
  assert (E : args c = args c').
  { apply path_determines_args; try assumption.
    - rewrite Ha. apply F.
    - rewrite Ha'. apply F. }
  rewrite Ha, Ha' in E. clear -E. revert ids' E.
  induction ids as [|n ids IH]; intros [|n' ids'] E; try discriminate E.
  - reflexivity.
  - cbn [map] in E. injection E as En E.
    apply ToString_PNum_inj in En. subst n'. f_equal. now apply IH.
Qed.

Lemma integer_ids_never_collide_witness :
  Eager.url
    (Eager.createLittleBugShopEndpoints (buildUrl_of "http://localhost:5052"))
    (Reviews_getById (PNum 10) (PNum 5))
  = Eager.url
      (Eager.createLittleBugShopEndpoints (buildUrl_of "http://localhost:5052"))
      (Reviews_getById (PNum (5 + 5)) (PNum 5))
  /\ [10; 5]%Z = [5 + 5; 5]%Z.
Proof.
  split; [reflexivity|].
  exact (integer_ids_never_collide "http://localhost:5052"
           (Reviews_getById (PNum 10) (PNum 5))
           (Reviews_getById (PNum (5 + 5)) (PNum 5))
           [10; 5]%Z [5 + 5; 5]%Z eq_refl eq_refl eq_refl eq_refl).
Defined.

(** X6: parameters with slashes reach other endpoints.  For every base and
    all texts, [Users.getById] of ["admin/users/" + s] is the URL of
    [Users.admin.getUserById(s)], [Products.getById] of [s + "/stock"] that
    of [Products.stock(s)], and [Reviews.getById] gives one URL to the
    pairs [(a + "/Reviews/" + b, c)] and [(a, b + "/Reviews/" + c)]. *)
Theorem slashes_in_parameters_reach_other_endpoints (base a b c : string) :
  Lazy.url (Lazy.UrlBuilder.mk base) (Users_getById (PStr ("admin/users/" ++ a)))
  = Lazy.url (Lazy.UrlBuilder.mk base) (Users_admin_getUserById (PStr a))
  /\ Lazy.url (Lazy.UrlBuilder.mk base) (Products_getById (PStr (a ++ "/stock")))
     = Lazy.url (Lazy.UrlBuilder.mk base) (Products_stock (PStr a))
  /\ Lazy.url (Lazy.UrlBuilder.mk base)
       (Reviews_getById (PStr (a ++ "/Reviews/" ++ b)) (PStr c))
     = Lazy.url (Lazy.UrlBuilder.mk base)
         (Reviews_getById (PStr a) (PStr (b ++ "/Reviews/" ++ c)))
  /\ Eager.url (Eager.createLittleBugShopEndpoints (buildUrl_of base))
       (Reviews_getById (PStr (a ++ "/Reviews/" ++ b)) (PStr c))
     = Eager.url (Eager.createLittleBugShopEndpoints (buildUrl_of base))
         (Reviews_getById (PStr a) (PStr (b ++ "/Reviews/" ++ c))).
Proof.
  rewrite !builders_agree, !Lazy_url_path. cbn.
  repeat split; rewrite ?append_assoc; reflexivity.
Qed.

(** X7: the table [endpoints] of [api.config.ts] and the builders agree:
    a base followed by an entry of the table is the URL the builders give
    the corresponding operation, and [Users.getById(id)] is the entry
    [users], a slash and the id. *)
Theorem endpoints_table_agrees (base : string) (id : PathParam) :
  let e := ApiEndpoints.endpoints in
  let url := Lazy.url (Lazy.UrlBuilder.mk base) in
  base ++ ApiEndpoints.register e = url Users_register
  /\ base ++ ApiEndpoints.login e = url Users_login
  /\ base ++ ApiEndpoints.logout e = url Users_logout
  /\ base ++ ApiEndpoints.products e = url Products_list
  /\ base ++ ApiEndpoints.cart e = url Cart_get
  /\ base ++ ApiEndpoints.orders e = url Orders_list
  /\ base ++ ApiEndpoints.users e ++ "/" ++ ToString id = url (Users_getById id).
Proof.
  cbn zeta. rewrite !Lazy_url_path. cbn.
  repeat split.
Qed.

(** ** The retry helper *)

Section RetryRuns.

Context {R E : Type} (status : R -> Z) (fn : nat -> Retry.Outcome R E).
Context (expectedStatus maxAttempts delayMs : Z).

Local Abbreviation run :=
  (Retry.loop status fn expectedStatus maxAttempts delayMs).
Local Abbreviation is_hit := (Retry.hit status fn expectedStatus).

Lemma loop_first_hit (k : nat) :
  forall (fuel : nat) (attempt : Z) (calls : nat) (last : option R) (r : R),
    k < fuel ->
    (attempt + Z.of_nat k <= maxAttempts)%Z ->
    (forall j, j < k -> is_hit (calls + j) = false) ->
    fn (calls + k) = Retry.Resolved r ->
    status r = expectedStatus ->
    run fuel attempt calls last
    = Some (Retry.Returned r,
            (Retry.failed_attempts delayMs k ++ [Retry.Called])%list).
Proof.
  unfold Retry.hit.
  induction k as [|k IH]; intros fuel attempt calls last r Hf Ha Hm Hr Hs;
    destruct fuel as [|fuel]; try lia; cbn [Retry.loop].
  - rewrite Nat.add_0_r in Hr.
    replace (attempt <=? maxAttempts)%Z with true by (symmetry; lia).
    rewrite Hr. now replace (status r =? expectedStatus)%Z with true
      by (symmetry; lia).
  - replace (attempt <=? maxAttempts)%Z with true by (symmetry; lia).
    pose proof (Hm 0 ltac:(lia)) as H0. rewrite Nat.add_0_r in H0.
    assert (Hrec : forall last',
      Retry.loop status fn expectedStatus maxAttempts delayMs fuel
        (attempt + 1)%Z (S calls) last'
      = Some (Retry.Returned r,
              (Retry.failed_attempts delayMs k ++ [Retry.Called])%list)).
    { intros last'. apply IH; try lia.
      - intros j Hj. specialize (Hm (S j) ltac:(lia)).
        now replace (S calls + j) with (calls + S j) by lia.
      - now replace (S calls + k) with (calls + S k) by lia. }
    destruct (fn calls) as [r'|e].
    + rewrite H0.
      replace (attempt <? maxAttempts)%Z with true by (symmetry; lia).
      now rewrite Hrec.
    + replace (attempt =? maxAttempts)%Z with false by (symmetry; lia).
      now rewrite Hrec.
Qed.



End RetryRuns.

Lemma calls_in_failed_attempts (delayMs : Z) (k : nat) :
  Retry.calls_in (Retry.failed_attempts delayMs k ++ [Retry.Called])%list = S k
  /\ Retry.pauses_in (Retry.failed_attempts delayMs k ++ [Retry.Called])%list
     = k.
Proof.
  unfold Retry.calls_in, Retry.pauses_in.
  induction k as [|k [IHc IHp]]; [split; reflexivity|].
  cbn [Retry.failed_attempts app List.filter List.length].
  now rewrite IHc, IHp.
Qed.

(** X8: when the call number [k] (from 0, [k] below [maxAttempts]) is the
    first to resolve with the expected status, [retryUntilStatus] returns
    that response after exactly [k + 1] calls of [fn], each failed attempt
    (other status, or rejection, which is swallowed) being followed by one
    pause of [delayMs]. *)
Theorem retry_returns_first_expected {R E : Type} (status : R -> Z)
    (fn : nat -> Retry.Outcome R E) (expectedStatus maxAttempts delayMs : Z)
    (k : nat) (r : R) :
  (Z.of_nat k < maxAttempts)%Z ->
  (forall j, j < k -> Retry.hit status fn expectedStatus j = false) ->
  fn k = Retry.Resolved r ->
  status r = expectedStatus ->
  exists log,
    Retry.retryUntilStatus status fn expectedStatus maxAttempts delayMs
    = Some (Retry.Returned r, log)
    /\ log = (Retry.failed_attempts delayMs k ++ [Retry.Called])%list
    /\ Retry.calls_in log = S k
    /\ Retry.pauses_in log = k.
Proof.
  intros Hk Hm Hr Hs. eexists. split; [|split; [reflexivity|]].
  - unfold Retry.retryUntilStatus.
    apply (loop_first_hit status fn expectedStatus maxAttempts delayMs k);
      auto; lia.
  - apply calls_in_failed_attempts.
Qed.

Lemma retry_returns_first_expected_witness :
  let fn := fun k : nat =>
    match k with
    | 0 => Retry.Rejected "ECONNRESET"
    | 1 => Retry.Resolved 503%Z
    | _ => Retry.Resolved 200%Z
    end in
  (Z.of_nat 2 < 5)%Z
  /\ Retry.retryUntilStatus (fun r : Z => r) fn 200 5 1000
     = Some (Retry.Returned 200%Z,
             [Retry.Called; Retry.Slept 1000; Retry.Called; Retry.Slept 1000;
              Retry.Called]).
Proof.
  cbn zeta. split; [lia|].
  destruct (retry_returns_first_expected (fun r : Z => r)
              (fun k : nat =>
                 match k with
                 | 0 => Retry.Rejected "ECONNRESET"
                 | 1 => Retry.Resolved 503%Z
                 | _ => Retry.Resolved 200%Z
                 end)
              200 5 1000 2 200%Z ltac:(lia)
              ltac:(intros [|[|j]] Hj; [reflexivity | reflexivity | lia])
              eq_refl eq_refl) as (log & Hrun & Hlog & _).
  rewrite Hrun, Hlog. reflexivity.
Defined.



Lemma retry_no_attempt_run {R E : Type} (status : R -> Z)
    (fn : nat -> Retry.Outcome R E) (expectedStatus maxAttempts delayMs : Z) :
  (maxAttempts < 1)%Z ->
  Retry.retryUntilStatus status fn expectedStatus maxAttempts delayMs
  = Some (Retry.ThrewError
            (Retry.failure_message status expectedStatus maxAttempts None),
          []).
Proof.
  intros H. unfold Retry.retryUntilStatus. cbn [Retry.loop].
  now replace (1 <=? maxAttempts)%Z with false by (symmetry; lia).
Qed.

(** X10: with [maxAttempts] below 1 the helper never calls [fn] and never
    pauses; it throws at once the error whose message ends in
    ["Last status: undefined"]. *)
Theorem retry_without_attempts {R E : Type} (status : R -> Z)
    (fn : nat -> Retry.Outcome R E) (expectedStatus maxAttempts delayMs : Z) :
  (maxAttempts < 1)%Z ->
  Retry.retryUntilStatus status fn expectedStatus maxAttempts delayMs
  = Some (Retry.ThrewError
            ("Failed to get status " ++ ToString (PNum expectedStatus)
             ++ " after " ++ ToString (PNum maxAttempts)
             ++ " attempts. Last status: undefined"), []).
Proof. intros H. now rewrite retry_no_attempt_run. Qed.

Lemma retry_without_attempts_witness :
  (0 < 1)%Z
  /\ Retry.retryUntilStatus (fun r : Z => r)
       (fun _ : nat => @Retry.Resolved Z string 200%Z) 200 0 1000
     = Some (Retry.ThrewError
               "Failed to get status 200 after 0 attempts. Last status: undefined",
             []).
Proof.
  split; [lia|].
  exact (retry_without_attempts (fun r : Z => r)
           (fun _ : nat => @Retry.Resolved Z string 200%Z) 200 0 1000
           ltac:(lia)).
Defined.


(** ** The generator of test data *)

Lemma get_contains (s : string) (n : nat) (c : ascii) :
  String.get n s = Some c -> contains c s = true.
Proof.
  revert n. induction s as [|a s IH]; intros n H; [discriminate|].
  destruct n as [|n]; simpl in H |- *.
  - injection H as ->. now rewrite Ascii.eqb_refl.
  - rewrite (IH n H). apply orb_true_r.
Qed.

Lemma get_in_range (s : string) (n : nat) :
  n < String.length s -> exists c, String.get n s = Some c.
Proof.
  revert n. induction s as [|a s IH]; intros n H; simpl in H; [lia|].
  destruct n as [|n]; simpl; [now eexists|]. apply IH. lia.
Qed.

Lemma charAt_in_range (s : string) (i : Z) :
  (0 <= i < Z.of_nat (String.length s))%Z ->
  exists c, TestDataGenerator.charAt s i = String c EmptyString
            /\ contains c s = true.
Proof.
  intros H. unfold TestDataGenerator.charAt.
  replace (i <? 0)%Z with false by (symmetry; lia).
  destruct (get_in_range s (Z.to_nat i) ltac:(lia)) as [c Hc].
  rewrite Hc. exists c. split; [reflexivity|]. now apply get_contains in Hc.
Qed.

Lemma all_in_app (allowed a b : string) :
  TestDataGenerator.all_in allowed (a ++ b)
  = TestDataGenerator.all_in allowed a && TestDataGenerator.all_in allowed b.
Proof.
  induction a as [|x a IH]; simpl; [reflexivity|].
  now rewrite IH, andb_assoc.
Qed.

Lemma count_char_app (ch : ascii) (a b : string) :
  TestDataGenerator.count_char ch (a ++ b)
  = TestDataGenerator.count_char ch a + TestDataGenerator.count_char ch b.
Proof. induction a as [|x a IH]; simpl; [reflexivity | rewrite IH; lia]. Qed.

Lemma count_char_absent (ch : ascii) (allowed s : string) :
  contains ch allowed = false ->
  TestDataGenerator.all_in allowed s = true ->
  TestDataGenerator.count_char ch s = 0.
Proof.
  intros Hn. induction s as [|x s IH]; simpl; [reflexivity|].
  intros H. apply andb_prop in H as [Hx Hs].
  destruct (Ascii.eqb_spec x ch) as [->|]; [congruence|].
  now rewrite IH.
Qed.

Lemma generateRandomString_loop_shape (rnd : nat -> Z -> Z) :
  TestDataGenerator.in_range rnd ->
  forall (n : nat) (result : string) (k : nat),
    exists t,
      TestDataGenerator.generateRandomString_loop rnd n result k
      = (result ++ t, k + n)
      /\ String.length t = n
      /\ TestDataGenerator.all_in TestDataGenerator.chars t = true.
Proof.
  intros Hr. induction n as [|n IH]; intros result k.
  - exists EmptyString. rewrite append_empty_r, Nat.add_0_r. now repeat split.
  - cbn [TestDataGenerator.generateRandomString_loop].
    destruct (charAt_in_range TestDataGenerator.chars
                (rnd k (Z.of_nat (String.length TestDataGenerator.chars))))
      as (c & Hc & Hin); [apply Hr; cbn; lia|].
    rewrite Hc.
    destruct (IH (result ++ String c EmptyString) (S k)) as (t & Ht & Hl & Ha).
    exists (String c t). rewrite Ht, append_assoc.
    replace (S k + n) with (k + S n) by lia.
    repeat split;
      [cbn [String.length]; now rewrite Hl
      | cbn [TestDataGenerator.all_in]; now rewrite Hin, Ha].
Qed.

Lemma generateRandomString_run (rnd : nat -> Z -> Z) (length : Z) (k : nat) :
  TestDataGenerator.in_range rnd ->
  String.length (fst (TestDataGenerator.generateRandomString rnd length k))
  = Z.to_nat length
  /\ TestDataGenerator.all_in TestDataGenerator.chars
       (fst (TestDataGenerator.generateRandomString rnd length k)) = true
  /\ snd (TestDataGenerator.generateRandomString rnd length k)
     = k + Z.to_nat length.
Proof.
  intros Hr. unfold TestDataGenerator.generateRandomString.
  destruct (generateRandomString_loop_shape rnd Hr (Z.to_nat length)
              EmptyString k) as (t & Ht & Hl & Ha).
  rewrite Ht. cbn [fst snd String.append]. now repeat split.
Qed.

(** X12: [generateRandomString(length)] returns exactly [length]
    characters ([length] an integer; none when it is zero or negative),
    each of them a letter or a digit of [chars], and draws one random
    number per character. *)
Theorem generateRandomString_shape (rnd : nat -> Z -> Z) (length : Z)
    (k : nat) :
  TestDataGenerator.in_range rnd ->
  String.length (fst (TestDataGenerator.generateRandomString rnd length k))
  = Z.to_nat length
  /\ TestDataGenerator.all_in TestDataGenerator.chars
       (fst (TestDataGenerator.generateRandomString rnd length k)) = true
  /\ snd (TestDataGenerator.generateRandomString rnd length k)
     = k + Z.to_nat length.
Proof. apply generateRandomString_run. Qed.

Lemma counting_rnd_in_range :
  TestDataGenerator.in_range (fun k n => (Z.of_nat (7 * k + 3) mod n)%Z).
Proof. intros k n Hn. apply Z.mod_pos_bound. exact Hn. Qed.

Lemma generateRandomString_shape_witness :
  TestDataGenerator.in_range (fun k n => (Z.of_nat (7 * k + 3) mod n)%Z)
  /\ fst (TestDataGenerator.generateRandomString
            (fun k n => (Z.of_nat (7 * k + 3) mod n)%Z) 5 0)
     = "DKRYf"
  /\ String.length
       (fst (TestDataGenerator.generateRandomString
               (fun k n => (Z.of_nat (7 * k + 3) mod n)%Z) 5 0)) = 5.
Proof.
  split; [exact counting_rnd_in_range|]. split; [reflexivity|].
  exact (proj1 (generateRandomString_shape
                  (fun k n => (Z.of_nat (7 * k + 3) mod n)%Z) 5 0
                  counting_rnd_in_range)).
Defined.

(** X13: [generateRandomEmail()] is ["test_"], eight letters or digits and
    ["@example.com"]: 25 characters with exactly one ["@"]. *)
Theorem generateRandomEmail_shape (rnd : nat -> Z -> Z) (k : nat) :
  TestDataGenerator.in_range rnd ->
  exists s,
    fst (TestDataGenerator.generateRandomEmail rnd k)
    = "test_" ++ s ++ "@example.com"
    /\ String.length s = 8
    /\ TestDataGenerator.all_in TestDataGenerator.chars s = true
    /\ String.length (fst (TestDataGenerator.generateRandomEmail rnd k)) = 25
    /\ TestDataGenerator.count_char "@"
         (fst (TestDataGenerator.generateRandomEmail rnd k)) = 1
    /\ snd (TestDataGenerator.generateRandomEmail rnd k) = k + 8.
Proof.
  intros Hr. unfold TestDataGenerator.generateRandomEmail.
  destruct (generateRandomString_run rnd 8 k Hr) as (Hl & Ha & Hk).
  destruct (TestDataGenerator.generateRandomString rnd 8 k) as [s k'].
  cbn [fst snd] in *. exists s. repeat split; auto.
  - rewrite !append_length, Hl. reflexivity.
  - rewrite !count_char_app.
    rewrite (count_char_absent "@" TestDataGenerator.chars s); auto.
Qed.

Lemma generateRandomEmail_shape_witness :
  TestDataGenerator.in_range (fun k n => (Z.of_nat (7 * k + 3) mod n)%Z)
  /\ fst (TestDataGenerator.generateRandomEmail
            (fun k n => (Z.of_nat (7 * k + 3) mod n)%Z) 0)
     = "test_DKRYfmt0@example.com".
Proof.
  split; [exact counting_rnd_in_range|].
  destruct (generateRandomEmail_shape
              (fun k n => (Z.of_nat (7 * k + 3) mod n)%Z) 0
              counting_rnd_in_range) as (s & Hs & _).
  reflexivity.
Defined.

Lemma below_16 (r : Z) :
  (0 <= r < 16)%Z -> exists n, n < 16 /\ r = Z.of_nat n.
Proof. intros H. exists (Z.to_nat r). lia. Qed.

Lemma toString16_digit (r : Z) :
  (0 <= r < 16)%Z ->
  exists c, TestDataGenerator.toString16 r = String c EmptyString
            /\ contains c "0123456789abcdef" = true.
Proof.
  intros H. destruct (below_16 r H) as (n & Hn & ->).
  do 16 (destruct n as [|n]; [eexists; split; reflexivity|]). lia.
Qed.

Lemma toString16_variant (r : Z) :
  (0 <= r < 16)%Z ->
  exists c, TestDataGenerator.toString16 (Z.lor (Z.land r 3) 8)
            = String c EmptyString
            /\ contains c "89ab" = true.
Proof.
  intros H. destruct (below_16 r H) as (n & Hn & ->).
  do 16 (destruct n as [|n]; [eexists; split; reflexivity|]). lia.
Qed.

Lemma follows_length (pat out : string) :
  TestDataGenerator.follows pat out = true ->
  String.length out = String.length pat.
Proof.
  revert out. induction pat as [|p pat IH]; intros [|o out] H;
    try discriminate H; [reflexivity|].
  cbn [TestDataGenerator.follows] in H. apply andb_prop in H as [_ H].
  cbn [String.length]. now rewrite (IH out H).
Qed.

Lemma replace_xy_follows (rnd : nat -> Z -> Z) :
  TestDataGenerator.in_range rnd ->
  forall (s : string) (k : nat),
    TestDataGenerator.follows s (fst (TestDataGenerator.replace_xy rnd s k))
    = true
    /\ snd (TestDataGenerator.replace_xy rnd s k)
       = k + TestDataGenerator.count_char "x" s
           + TestDataGenerator.count_char "y" s.
Proof.
  intros Hr. induction s as [|c s IH]; intros k.
  - split; [reflexivity | cbn; lia].
  - cbn [TestDataGenerator.replace_xy TestDataGenerator.count_char].
    destruct (Ascii.eqb_spec c "x") as [->|Hx].
    + cbn [orb Ascii.eqb Bool.eqb].
      destruct (IH (S k)) as [Hf Hk].
      destruct (TestDataGenerator.replace_xy rnd s (S k)) as [rest k'].
      cbn [fst snd] in *.
      destruct (toString16_digit (rnd k 16%Z)) as (d & Hd & Hin);
        [apply Hr; lia|].
      rewrite Hd. cbn [String.append TestDataGenerator.follows Ascii.eqb Bool.eqb].
      rewrite Hin, Hf. split; [reflexivity | lia].
    + destruct (Ascii.eqb_spec c "y") as [->|Hy].
      * cbn [orb Ascii.eqb Bool.eqb].
        destruct (IH (S k)) as [Hf Hk].
        destruct (TestDataGenerator.replace_xy rnd s (S k)) as [rest k'].
        cbn [fst snd] in *.
        destruct (toString16_variant (rnd k 16%Z)) as (d & Hd & Hin);
          [apply Hr; lia|].
        rewrite Hd.
        cbn [String.append TestDataGenerator.follows Ascii.eqb Bool.eqb].
        rewrite Hin, Hf. split; [reflexivity | lia].
      * cbn [orb].
        destruct (IH k) as [Hf Hk].
        destruct (TestDataGenerator.replace_xy rnd s k) as [rest k'].
        cbn [fst snd] in *. cbn [TestDataGenerator.follows].
        destruct (Ascii.eqb_spec c "x"); [contradiction|].
        destruct (Ascii.eqb_spec c "y"); [contradiction|].
        rewrite Ascii.eqb_refl, Hf. split; [reflexivity | lia].
Qed.

(** X14: [generateUUID()] has the form of a version 4 identifier: 36
    characters that follow the template, with a lowercase hexadecimal digit
    for each [x], one of [8], [9], [a], [b] for the [y], and the hyphens and
    the [4] in place; it draws 31 random numbers. *)
Theorem generateUUID_shape (rnd : nat -> Z -> Z) (k : nat) :
  TestDataGenerator.in_range rnd ->
  TestDataGenerator.follows "xxxxxxxx-xxxx-4xxx-yxxx-xxxxxxxxxxxx"
    (fst (TestDataGenerator.generateUUID rnd k)) = true
  /\ String.length (fst (TestDataGenerator.generateUUID rnd k)) = 36
  /\ snd (TestDataGenerator.generateUUID rnd k) = k + 31.
Proof.
  intros Hr. unfold TestDataGenerator.generateUUID.
  destruct (replace_xy_follows rnd Hr TestDataGenerator.uuid_template k)
    as [Hf Hk].
  split; [exact Hf|]. split.
  - now rewrite (follows_length _ _ Hf).
  - rewrite Hk. cbn. lia.
Qed.

Lemma generateUUID_shape_witness :
  TestDataGenerator.in_range (fun k n => (Z.of_nat (7 * k + 3) mod n)%Z)
  /\ fst (TestDataGenerator.generateUUID
            (fun k n => (Z.of_nat (7 * k + 3) mod n)%Z) 0)
     = "3a18f6d4-b290-47e5-83a1-8f6d4b2907e5"
  /\ String.length
       (fst (TestDataGenerator.generateUUID
               (fun k n => (Z.of_nat (7 * k + 3) mod n)%Z) 0)) = 36.
Proof.
  split; [exact counting_rnd_in_range|]. split; [reflexivity|].
  exact (proj1 (proj2 (generateUUID_shape
                         (fun k n => (Z.of_nat (7 * k + 3) mod n)%Z) 0
                         counting_rnd_in_range))).
Defined.

(** ** The cart factory *)

Lemma generateCartItem_run (F : CartFactory.Faker)
    (overrides : option (gmap string CartFactory.Value))
    (s : CartFactory.state F) :
  exists productId quantity s1 s2,
    CartFactory.number_int F 1 1000 s = (productId, s1)
    /\ CartFactory.number_int F 1 10 s1 = (quantity, s2)
    /\ CartFactory.generateCartItem F overrides s
       = (default ∅ overrides
            ∪ <["productId" := CartFactory.VNumber productId]>
                (<["quantity" := CartFactory.VNumber quantity]> ∅),
          s2).
Proof.
  unfold CartFactory.generateCartItem, CartFactory.spread.
  destruct (CartFactory.number_int F 1 1000 s) as [productId s1] eqn:H1.
  destruct (CartFactory.number_int F 1 10 s1) as [quantity s2] eqn:H2.
  exists productId, quantity, s1, s2. now rewrite H2.
Qed.

(** X15: in the object [generateCartItem(overrides)] returns, a property
    of [overrides] keeps the value [overrides] gives it, [undefined]
    included; without it [productId] is a generated integer from 1 to 1000
    and [quantity] one from 1 to 10; there is no other property. *)
Theorem generateCartItem_properties (F : CartFactory.Faker)
    (overrides : option (gmap string CartFactory.Value))
    (s : CartFactory.state F) :
  CartFactory.in_bounds F ->
  let given := default ∅ overrides in
  let item := fst (CartFactory.generateCartItem F overrides s) in
  (forall key v, given !! key = Some v -> item !! key = Some v)
  /\ (given !! "productId" = None ->
      exists n, item !! "productId" = Some (CartFactory.VNumber n)
                /\ (1 <= n <= 1000)%Z)
  /\ (given !! "quantity" = None ->
      exists n, item !! "quantity" = Some (CartFactory.VNumber n)
                /\ (1 <= n <= 10)%Z)
  /\ (forall key, key <> "productId" -> key <> "quantity" ->
      item !! key = given !! key).
Proof.
  intros HF given item.
  destruct (generateCartItem_run F overrides s)
    as (productId & quantity & s1 & s2 & H1 & H2 & Hrun).
  subst item. rewrite Hrun. cbn [fst]. fold given.
  pose proof (HF 1%Z 1000%Z s ltac:(lia)) as B1. rewrite H1 in B1.
  pose proof (HF 1%Z 10%Z s1 ltac:(lia)) as B2. rewrite H2 in B2.
  cbn [fst] in B1, B2.
  repeat split.
  - intros key v Hv. now apply lookup_union_Some_l.
  - intros Hn. exists productId. split; [|exact B1].
    rewrite lookup_union_r by exact Hn. now rewrite lookup_insert_eq.
  - intros Hn. exists quantity. split; [|exact B2].
    rewrite lookup_union_r by exact Hn.
    rewrite lookup_insert_ne by discriminate. now rewrite lookup_insert_eq.
  - intros key Hp Hq. rewrite lookup_union.
    rewrite !lookup_insert_ne by congruence. rewrite lookup_empty.
    now destruct (given !! key).
Qed.

Lemma counting_faker_in_bounds :
  CartFactory.in_bounds CartFactory.counting_faker.
Proof.
  intros min max s H. cbn.
  pose proof (Z.mod_pos_bound (Z.of_nat s) (max - min + 1) ltac:(lia)). lia.
Qed.

Lemma generateCartItem_properties_witness :
  CartFactory.in_bounds CartFactory.counting_faker
  /\ exists n,
       fst (CartFactory.generateCartItem CartFactory.counting_faker
              (Some (<["quantity" := CartFactory.VNumber 0]> ∅)) 41)
         !! "productId" = Some (CartFactory.VNumber n)
       /\ (1 <= n <= 1000)%Z.
Proof.
  split; [exact counting_faker_in_bounds|].
  pose proof (generateCartItem_properties CartFactory.counting_faker
                (Some (<["quantity" := CartFactory.VNumber 0]> ∅)) 41
                counting_faker_in_bounds) as (_ & H & _).
  apply H. vm_compute. reflexivity.
Defined.

(** X16: the factories that take an optional [productId] pass it on as a
    property of the override.  When the argument is omitted the item
    returned has the property [productId] set to [undefined], not a
    generated id; when it is given the item has that id.  The quantity is
    0, 1 and 99 for the zero, single and maximum factories. *)
Theorem omitted_productId_is_undefined (F : CartFactory.Faker)
    (productId : option Z) (s : CartFactory.state F) :
  let expected := Some (CartFactory.of_optional productId) in
  CartFactory.productId_of
    (fst (CartFactory.generateCartItemWithZeroQuantity F productId s))
  = expected
  /\ CartFactory.productId_of
       (fst (CartFactory.generateSingleQuantityCartItem F productId s))
     = expected
  /\ CartFactory.productId_of
       (fst (CartFactory.generateMaxQuantityCartItem F productId s))
     = expected
  /\ CartFactory.productId_of
       (fst (CartFactory.generateCartItemWithNegativeQuantity F productId s))
     = expected
  /\ CartFactory.productId_of
       (fst (CartFactory.generateCartItemWithLargeQuantity F productId s))
     = expected
  /\ fst (CartFactory.generateCartItemWithZeroQuantity F productId s)
       !! "quantity" = Some (CartFactory.VNumber 0)
  /\ fst (CartFactory.generateSingleQuantityCartItem F productId s)
       !! "quantity" = Some (CartFactory.VNumber 1)
  /\ fst (CartFactory.generateMaxQuantityCartItem F productId s)
       !! "quantity" = Some (CartFactory.VNumber 99).
Proof.
  cbn zeta. unfold CartFactory.productId_of,
    CartFactory.generateCartItemWithZeroQuantity,
    CartFactory.generateSingleQuantityCartItem,
    CartFactory.generateMaxQuantityCartItem,
    CartFactory.generateCartItemWithNegativeQuantity,
    CartFactory.generateCartItemWithLargeQuantity.
  assert (P : forall q s0,
    fst (CartFactory.generateCartItem F
           (Some (CartFactory.with_quantity productId q)) s0) !! "productId"
    = Some (CartFactory.of_optional productId)
    /\ fst (CartFactory.generateCartItem F
              (Some (CartFactory.with_quantity productId q)) s0) !! "quantity"
       = Some (CartFactory.VNumber q)).
  { intros q s0.
    destruct (generateCartItem_run F
                (Some (CartFactory.with_quantity productId q)) s0)
      as (p & n & s1 & s2 & _ & _ & Hrun).
    rewrite Hrun. cbn [fst default from_option id].
    unfold CartFactory.with_quantity. split.
    - apply lookup_union_Some_l. now rewrite lookup_insert_eq.
    - apply lookup_union_Some_l.
      rewrite lookup_insert_ne by discriminate. now rewrite lookup_insert_eq. }
  destruct (CartFactory.number_int F 1 10 s) as [n1 s1].
  destruct (CartFactory.number_int F 1000 10000 s) as [n2 s2].
  repeat split; apply P.
Qed.

Lemma generateCartItemWithProductId_run (F : CartFactory.Faker) (p : Z)
    (s : CartFactory.state F) :
  CartFactory.in_bounds F ->
  exists q,
    CartFactory.productId_of
      (fst (CartFactory.generateCartItemWithProductId F p s))
    = Some (CartFactory.VNumber p)
    /\ fst (CartFactory.generateCartItemWithProductId F p s) !! "quantity"
       = Some (CartFactory.VNumber q)
    /\ (1 <= q <= 10)%Z.
Proof.
  intros HF. unfold CartFactory.generateCartItemWithProductId,
    CartFactory.productId_of.
  destruct (generateCartItem_run F
              (Some (<["productId" := CartFactory.VNumber p]> ∅)) s)
    as (p0 & q & s1 & s2 & _ & H2 & Hrun).
  rewrite Hrun. cbn [fst default from_option id].
  pose proof (HF 1%Z 10%Z s1 ltac:(lia)) as B. rewrite H2 in B.
  exists q. split; [|split; [|exact B]].
  - apply lookup_union_Some_l. now rewrite lookup_insert_eq.
  - rewrite lookup_union_r
      by (rewrite lookup_insert_ne by discriminate; apply lookup_empty).
    rewrite lookup_insert_ne by discriminate. now rewrite lookup_insert_eq.
Qed.

(** What the loop of [generateUniqueCartItems] keeps true of the set of
    ids and of the items. *)
Lemma unique_items_invariant (F : CartFactory.Faker) (count : Z) :
  CartFactory.in_bounds F ->
  forall (fuel : nat) (productIds : gset Z)
         (items : list (gmap string CartFactory.Value))
         (s : CartFactory.state F) (ids : list Z) res s',
    map CartFactory.productId_of items
    = map (fun n => Some (CartFactory.VNumber n)) ids ->
    List.NoDup ids ->
    (forall n, n ∈ productIds <-> In n ids) ->
    Forall (fun n => (1 <= n <= 1000)%Z) ids ->
    Forall (fun it => exists q, it !! "quantity" = Some (CartFactory.VNumber q)
                                /\ (1 <= q <= 10)%Z) items ->
    CartFactory.generateUniqueCartItems_loop F count fuel productIds items s
    = Some (res, s') ->
    exists ids',
      map CartFactory.productId_of res
      = map (fun n => Some (CartFactory.VNumber n)) ids'
      /\ List.NoDup ids'
      /\ Forall (fun n => (1 <= n <= 1000)%Z) ids'
      /\ Forall (fun it => exists q,
                   it !! "quantity" = Some (CartFactory.VNumber q)
                   /\ (1 <= q <= 10)%Z) res
      /\ Z.of_nat (List.length res)
         = Z.max count (Z.of_nat (List.length items)).
Proof.
  intros HF. induction fuel as [|fuel IH];
    intros productIds items s ids res s' Hmap Hnd Hset Hr Hq Hrun.
  - cbn [CartFactory.generateUniqueCartItems_loop] in Hrun.
    destruct (Z.of_nat (List.length items) <? count)%Z eqn:Hlt;
      [discriminate|].
    injection Hrun as <- <-. exists ids. repeat split; auto. lia.
  - cbn [CartFactory.generateUniqueCartItems_loop] in Hrun.
    destruct (Z.of_nat (List.length items) <? count)%Z eqn:Hlt.
    2:{ injection Hrun as <- <-. exists ids. repeat split; auto. lia. }
    pose proof (HF 1%Z 1000%Z s ltac:(lia)) as B.
    destruct (CartFactory.number_int F 1 1000 s) as [p s1]. cbn [fst] in B.
    destruct (decide (p ∈ productIds)) as [Hin|Hnin].
    + destruct (IH _ _ _ _ _ _ Hmap Hnd Hset Hr Hq Hrun)
        as (ids' & H1 & H2 & H3 & H4 & H5).
      exists ids'. repeat split; auto.
    + destruct (generateCartItemWithProductId_run F p s1 HF)
        as (q & Hp & Hqty & Hqb).
      destruct (CartFactory.generateCartItemWithProductId F p s1)
        as [item s2]. cbn [fst] in Hp, Hqty.
      apply (IH _ _ _ (ids ++ [p])%list) in Hrun.
      * destruct Hrun as (ids' & H1 & H2 & H3 & H4 & H5).
        exists ids'. repeat split; auto.
        rewrite H5, length_app. cbn [List.length]. lia.
      * rewrite !map_app, Hmap. cbn [map]. now rewrite Hp.
      * apply List.NoDup_app; auto.
        -- constructor; [intros []|constructor].
        -- intros a Ha [<-|[]]. apply Hnin, Hset, Ha.
      * intros n. rewrite elem_of_union, elem_of_singleton, in_app_iff, Hset.
        cbn [In]. intuition.
      * apply Forall_app. split; auto.
      * apply Forall_app. split; auto. constructor; [|constructor].
        now exists q.
Qed.

Lemma range_holds_at_most_1000 (ids : list Z) :
  List.NoDup ids -> Forall (fun n => (1 <= n <= 1000)%Z) ids ->
  List.length ids <= 1000.
Proof.
  intros Hnd Hr.
  assert (Hincl : incl ids (map Z.of_nat (seq 1 1000))).
  { intros n Hn. rewrite List.Forall_forall in Hr. specialize (Hr n Hn).
    apply in_map_iff. exists (Z.to_nat n). split; [lia|].
    apply in_seq. lia. }
  pose proof (NoDup_incl_length Hnd Hincl) as H.
  rewrite length_map, length_seq in H. exact H.
Qed.

(** X17: whenever [generateUniqueCartItems(count)] returns, it returns
    exactly [count] items (none for a count below 1) whose [productId]s are
    integers from 1 to 1000, no two of them equal, and whose quantities are
    integers from 1 to 10. *)
Theorem generateUniqueCartItems_distinct (F : CartFactory.Faker) (count : Z)
    (fuel : nat) (s s' : CartFactory.state F)
    (items : list (gmap string CartFactory.Value)) :
  CartFactory.in_bounds F ->
  CartFactory.generateUniqueCartItems F count fuel s = Some (items, s') ->
  List.length items = Z.to_nat count
  /\ exists ids,
       map CartFactory.productId_of items
       = map (fun n => Some (CartFactory.VNumber n)) ids
       /\ List.NoDup ids
       /\ Forall (fun n => (1 <= n <= 1000)%Z) ids
       /\ Forall (fun it => exists q,
                    it !! "quantity" = Some (CartFactory.VNumber q)
                    /\ (1 <= q <= 10)%Z) items.
Proof.
  intros HF Hrun. unfold CartFactory.generateUniqueCartItems in Hrun.
  apply (unique_items_invariant F count HF fuel ∅ [] s []) in Hrun;
    try (constructor; fail); try reflexivity.
  - destruct Hrun as (ids & H1 & H2 & H3 & H4 & H5).
    split; [cbn [List.length] in H5; lia|]. now exists ids.
  - intros n. cbn [In]. rewrite elem_of_empty. tauto.
Qed.

Lemma generateUniqueCartItems_distinct_witness :
  let run :=
    CartFactory.generateUniqueCartItems CartFactory.counting_faker 3 5 0 in
  CartFactory.in_bounds CartFactory.counting_faker
  /\ run = Some (default ([], 0) run)
  /\ List.length (fst (default ([], 0) run)) = 3
  /\ snd (default ([], 0) run) = 9.
Proof.
  cbn zeta. split; [exact counting_faker_in_bounds|].
  assert (Hrun :
    CartFactory.generateUniqueCartItems CartFactory.counting_faker 3 5 0
    = Some (fst (default ([], 0)
                   (CartFactory.generateUniqueCartItems
                      CartFactory.counting_faker 3 5 0)),
            snd (default ([], 0)
                   (CartFactory.generateUniqueCartItems
                      CartFactory.counting_faker 3 5 0))))
    by (vm_compute; reflexivity).
  pose proof (generateUniqueCartItems_distinct _ _ _ _ _ _
                counting_faker_in_bounds Hrun) as [Hlen _].
  split; [|split; [exact Hlen|]]; vm_compute; reflexivity.
Defined.

(** X18: [generateUniqueCartItems(count)] never returns when [count]
    exceeds 1000, the number of ids it draws from: whatever faker answers
    within its bounds and however long the loop runs, [items] never reaches
    [count] elements. *)
Theorem generateUniqueCartItems_above_1000 (F : CartFactory.Faker)
    (count : Z) (fuel : nat) (s : CartFactory.state F) :
  CartFactory.in_bounds F ->
  (1000 < count)%Z ->
  CartFactory.generateUniqueCartItems F count fuel s = None.
Proof.
  intros HF Hc.
  destruct (CartFactory.generateUniqueCartItems F count fuel s)
    as [[items s']|] eqn:Hrun; [|reflexivity].
  unfold CartFactory.generateUniqueCartItems in Hrun.
  apply (unique_items_invariant F count HF fuel ∅ [] s []) in Hrun;
    try (constructor; fail); try reflexivity.
  - destruct Hrun as (ids & H1 & H2 & H3 & _ & H5).
    pose proof (range_holds_at_most_1000 ids H2 H3) as Hle.
    apply (f_equal (@List.length _)) in H1. rewrite !length_map in H1.
    cbn [List.length] in H5. lia.
  - intros n. cbn [In]. rewrite elem_of_empty. tauto.
Qed.

Lemma generateUniqueCartItems_above_1000_witness :
  CartFactory.in_bounds CartFactory.counting_faker
  /\ (1000 < 1001)%Z
  /\ CartFactory.generateUniqueCartItems CartFactory.counting_faker 1001 50 0
     = None.
Proof.
  split; [exact counting_faker_in_bounds|]. split; [lia|].
  exact (generateUniqueCartItems_above_1000 CartFactory.counting_faker
           1001 50 0 counting_faker_in_bounds ltac:(lia)).
Defined.

(** ** The user factory *)

Lemma length_characters (s : string) :
  List.length (UserFactory.characters s) = String.length s.
Proof. induction s as [|c s IH]; simpl; [reflexivity | now rewrite IH]. Qed.

Lemma characters_app (a b : string) :
  UserFactory.characters (a ++ b)
  = (UserFactory.characters a ++ UserFactory.characters b)%list.
Proof. induction a as [|c a IH]; simpl; [reflexivity | now rewrite IH]. Qed.

Lemma shuffle_length (E : UserFactory.Env) (str : string)
    (s : UserFactory.state E) :
  UserFactory.well_behaved E ->
  String.length (fst (UserFactory.shuffle E str s)) = String.length str.
Proof.
  intros H. rewrite <- !length_characters.
  apply Permutation_length, (UserFactory.shuffle_permutes E H).
Qed.

Lemma fixed_env_well_behaved : UserFactory.well_behaved UserFactory.fixed_env.
Proof.
  assert (L : forall c n,
            String.length (string_of_list_ascii (repeat c n)) = n)
    by (intros c n; induction n; simpl; auto).
  assert (C : forall c n x,
            In x (UserFactory.characters (string_of_list_ascii (repeat c n)))
            -> x = c).
  { intros c n x. induction n as [|n IH]; simpl; [tauto|].
    intros [->|Hx]; auto. }
  split; cbn.
  - intros n s Hn. split; [apply L|]. intros c Hc. now rewrite (C _ _ _ Hc).
  - intros n s Hn. split; [apply L|]. intros c Hc. now rewrite (C _ _ _ Hc).
  - intros n s Hn. split; [apply L|]. intros c Hc. now rewrite (C _ _ _ Hc).
  - intros n s Hn. apply L.
  - intros [|x l] s Hl; [contradiction|]. exists x, s. split; [reflexivity|].
    now left.
  - intros str s. apply Permutation_refl.
Qed.

Lemma generateSecurePassword_run (E : UserFactory.Env)
    (s : UserFactory.state E) :
  UserFactory.well_behaved E ->
  exists upper lower digits special extra s5 s',
    UserFactory.generateSecurePassword E s
    = Some (UserFactory.shuffle E
              (upper ++ lower ++ digits ++ special ++ extra) s5)
    /\ UserFactory.generateSecurePassword E s
       = Some (fst (UserFactory.shuffle E
                      (upper ++ lower ++ digits ++ special ++ extra) s5), s')
    /\ String.length upper = 2
    /\ (forall c, In c (UserFactory.characters upper) ->
                  contains c "ABCDEFGHIJKLMNOPQRSTUVWXYZ" = true)
    /\ String.length lower = 2
    /\ (forall c, In c (UserFactory.characters lower) ->
                  contains c "abcdefghijklmnopqrstuvwxyz" = true)
    /\ String.length digits = 2
    /\ (forall c, In c (UserFactory.characters digits) ->
                  contains c "0123456789" = true)
    /\ In special ["@"; "#"; "$"; "%"; "&"; "*"]
    /\ String.length extra = 3.
Proof.
  intros H. unfold UserFactory.generateSecurePassword.
  pose proof (UserFactory.alpha_upper E H 2 s ltac:(lia)) as [U1 U2].
  destruct (UserFactory.string_alpha E 2 true s) as [upper s1].
  pose proof (UserFactory.alpha_lower E H 2 s1 ltac:(lia)) as [L1 L2].
  destruct (UserFactory.string_alpha E 2 false s1) as [lower s2].
  pose proof (UserFactory.numeric_digits E H 2 s2 ltac:(lia)) as [D1 D2].
  destruct (UserFactory.string_numeric E 2 s2) as [digits s3].
  destruct (UserFactory.arrayElement_member E H
              ["@"; "#"; "$"; "%"; "&"; "*"] s3 ltac:(discriminate))
    as (special & s4 & Hsp & Hin).
  rewrite Hsp.
  pose proof (UserFactory.alphanumeric_length E H 3 s4 ltac:(lia)) as A1.
  destruct (UserFactory.string_alphanumeric E 3 s4) as [extra s5].
  cbn [fst] in *.
  exists upper, lower, digits, special, extra, s5,
    (snd (UserFactory.shuffle E
            (upper ++ lower ++ digits ++ special ++ extra) s5)).
  repeat split; auto.
  now destruct (UserFactory.shuffle E _ s5).
Qed.

(** X19: [generateSecurePassword()] returns ten characters, among them an
    uppercase letter, a lowercase letter, a digit and one of [@#$%&*], as
    its comment promises. *)
Theorem generateSecurePassword_meets_requirements (E : UserFactory.Env)
    (s : UserFactory.state E) :
  UserFactory.well_behaved E ->
  exists password s',
    UserFactory.generateSecurePassword E s = Some (password, s')
    /\ String.length password = 10
    /\ (exists c, In c (UserFactory.characters password)
                  /\ contains c "ABCDEFGHIJKLMNOPQRSTUVWXYZ" = true)
    /\ (exists c, In c (UserFactory.characters password)
                  /\ contains c "abcdefghijklmnopqrstuvwxyz" = true)
    /\ (exists c, In c (UserFactory.characters password)
                  /\ contains c "0123456789" = true)
    /\ (exists c, In c (UserFactory.characters password)
                  /\ contains c "@#$%&*" = true).
Proof.
  intros H.
  destruct (generateSecurePassword_run E s H)
    as (upper & lower & digits & special & extra & s5 & s' & _ & Hrun
        & U1 & U2 & L1 & L2 & D1 & D2 & Hsp & A1).
  eexists _, s'. split; [exact Hrun|].
  pose proof (UserFactory.shuffle_permutes E H
                (upper ++ lower ++ digits ++ special ++ extra) s5) as P.
  assert (Hlen : String.length special = 1)
    by (cbn [In] in Hsp; intuition subst; reflexivity).
  split.
  { rewrite shuffle_length by exact H. rewrite !append_length. lia. }
  assert (M : forall c,
            In c (UserFactory.characters
                    (upper ++ lower ++ digits ++ special ++ extra)) ->
            In c (UserFactory.characters
                    (fst (UserFactory.shuffle E
                            (upper ++ lower ++ digits ++ special ++ extra)
                            s5))))
    by (intros c Hc; eapply Permutation_in; [symmetry; exact P | exact Hc]).
  rewrite !characters_app in M.
  repeat split.
  - destruct upper as [|c upper]; [discriminate U1|]. exists c. split.
    + apply M, in_or_app. left. now left.
    + apply U2. now left.
  - destruct lower as [|c lower]; [discriminate L1|]. exists c. split.
    + apply M, in_or_app. right. apply in_or_app. left. now left.
    + apply L2. now left.
  - destruct digits as [|c digits]; [discriminate D1|]. exists c. split.
    + apply M. do 2 (apply in_or_app; right). apply in_or_app. left.
      now left.
    + apply D2. now left.
  - destruct special as [|c special]; [discriminate Hlen|]. exists c. split.
    + apply M. do 3 (apply in_or_app; right). apply in_or_app. left.
      now left.
    + cbn [In] in Hsp.
      destruct Hsp as [Hs|[Hs|[Hs|[Hs|[Hs|[Hs|[]]]]]]];
        injection Hs as <- _; reflexivity.
Qed.

Lemma generateSecurePassword_meets_requirements_witness :
  UserFactory.well_behaved UserFactory.fixed_env
  /\ UserFactory.generateSecurePassword UserFactory.fixed_env tt
     = Some ("QQqq77@zzz", tt)
  /\ String.length "QQqq77@zzz" = 10.
Proof.
  split; [exact fixed_env_well_behaved|]. split; [reflexivity|].
  destruct (generateSecurePassword_meets_requirements UserFactory.fixed_env tt
              fixed_env_well_behaved) as (password & s' & Hrun & Hlen & _).
  change (UserFactory.generateSecurePassword UserFactory.fixed_env tt)
    with (Some ("QQqq77@zzz", tt)) in Hrun.
  injection Hrun as <- _. exact Hlen.
Defined.

Lemma generateUser_run (E : UserFactory.Env)
    (overrides : option (gmap string UserFactory.Value))
    (s : UserFactory.state E) :
  UserFactory.well_behaved E ->
  exists username password email firstName lastName phoneNumber s',
    UserFactory.generateUser E overrides s
    = Some (default ∅ overrides
              ∪ <["username" := UserFactory.VString username]>
                  (<["password" := UserFactory.VString password]>
                     (<["email" := UserFactory.VString email]>
                        (<["firstName" := UserFactory.VString firstName]>
                           (<["lastName" := UserFactory.VString lastName]>
                              (<["phoneNumber" :=
                                   UserFactory.VString phoneNumber]> ∅))))),
            s')
    /\ username
       = UserFactory.toLowerCase E (fst (UserFactory.internet_username E s))
    /\ String.length password = 10.
Proof.
  intros H. unfold UserFactory.generateUser, UserFactory.spread.
  destruct (UserFactory.internet_username E s) as [username s1].
  destruct (generateSecurePassword_run E s1 H)
    as (upper & lower & digits & special & extra & s5 & s2 & _ & Hrun
        & U1 & _ & L1 & _ & D1 & _ & Hsp & A1).
  rewrite Hrun.
  assert (Hlen : String.length special = 1)
    by (cbn [In] in Hsp; intuition subst; reflexivity).
  destruct (UserFactory.internet_email E s2) as [email s3].
  destruct (UserFactory.person_firstName E s3) as [firstName s4].
  destruct (UserFactory.person_lastName E s4) as [lastName s6].
  destruct (UserFactory.phone_number E s6) as [phoneNumber s7].
  do 7 eexists. split; [reflexivity|]. split; [reflexivity|].
  rewrite shuffle_length by exact H. rewrite !append_length. lia.
Qed.

(** X20: [generateUser(overrides)] returns an object in which every
    property of [overrides] keeps the value [overrides] gives it, as it
    is: a username given by the caller is not lowercased, as the generated
    one is.  The six properties of a registration request that
    [overrides] lacks hold generated strings, the password one of ten
    characters; there is no further property. *)
Theorem generateUser_properties (E : UserFactory.Env)
    (overrides : option (gmap string UserFactory.Value))
    (s : UserFactory.state E) :
  UserFactory.well_behaved E ->
  let given := default ∅ overrides in
  exists user s',
    UserFactory.generateUser E overrides s = Some (user, s')
    /\ (forall key v, given !! key = Some v -> user !! key = Some v)
    /\ (forall key,
          In key ["username"; "password"; "email"; "firstName"; "lastName";
                  "phoneNumber"] ->
          given !! key = None ->
          exists str, user !! key = Some (UserFactory.VString str))
    /\ (given !! "username" = None ->
        user !! "username"
        = Some (UserFactory.VString
                  (UserFactory.toLowerCase E
                     (fst (UserFactory.internet_username E s)))))
    /\ (given !! "password" = None ->
        exists str, user !! "password" = Some (UserFactory.VString str)
                    /\ String.length str = 10)
    /\ (forall key,
          ~ In key ["username"; "password"; "email"; "firstName"; "lastName";
                    "phoneNumber"] ->
          user !! key = given !! key).
Proof.
  intros H given.
  destruct (generateUser_run E overrides s H)
    as (username & password & email & firstName & lastName & phoneNumber
        & s' & Hrun & Hu & Hp).
  fold given in Hrun. do 2 eexists. split; [exact Hrun|].
  repeat split.
  - intros key v Hv. now apply lookup_union_Some_l.
  - intros key Hin Hn. rewrite lookup_union_r by exact Hn.
    cbn [In] in Hin.
    destruct Hin as [<-|[<-|[<-|[<-|[<-|[<-|[]]]]]]]; eexists; reflexivity.
  - intros Hn. rewrite lookup_union_r by exact Hn. now rewrite Hu.
  - intros Hn. rewrite lookup_union_r by exact Hn. now exists password.
  - intros key Hk. cbn [In] in Hk. rewrite lookup_union.
    rewrite !lookup_insert_ne by (intros <-; tauto). rewrite lookup_empty.
    now destruct (given !! key).
Qed.

Lemma generateUser_properties_witness :
  UserFactory.well_behaved UserFactory.fixed_env
  /\ exists user,
       UserFactory.generateUserWithUsername UserFactory.fixed_env "MixedCase" tt
       = Some (user, tt)
       /\ user !! "username" = Some (UserFactory.VString "MixedCase").
Proof.
  split; [exact fixed_env_well_behaved|].
  destruct (generateUser_properties UserFactory.fixed_env
              (Some (<["username" := UserFactory.VString "MixedCase"]> ∅)) tt
              fixed_env_well_behaved) as (user & [] & Hrun & Hov & _).
  exists user. split; [exact Hrun|].
  apply Hov. vm_compute. reflexivity.
Defined.

(** X21: [generateMinimalUser(overrides)] returns the object of
    [generateUser(overrides)] without the property [phoneNumber]: the
    property is absent even when [overrides] gives a phone number, and
    every other property is kept. *)
Theorem generateMinimalUser_has_no_phoneNumber (E : UserFactory.Env)
    (overrides : option (gmap string UserFactory.Value))
    (s : UserFactory.state E) :
  UserFactory.well_behaved E ->
  exists user minimal s',
    UserFactory.generateUser E overrides s = Some (user, s')
    /\ UserFactory.generateMinimalUser E overrides s = Some (minimal, s')
    /\ minimal !! "phoneNumber" = None
    /\ (forall key, key <> "phoneNumber" -> minimal !! key = user !! key).
Proof.
  intros H.
  destruct (generateUser_run E overrides s H)
    as (username & password & email & firstName & lastName & phoneNumber
        & s' & Hrun & _).
  unfold UserFactory.generateMinimalUser. rewrite Hrun.
  do 3 eexists. split; [reflexivity|]. split; [reflexivity|]. split.
  - apply lookup_delete_eq.
  - intros key Hk. now apply lookup_delete_ne.
Qed.

Lemma generateMinimalUser_has_no_phoneNumber_witness :
  UserFactory.well_behaved UserFactory.fixed_env
  /\ exists minimal,
       UserFactory.generateMinimalUser UserFactory.fixed_env
         (Some (<["phoneNumber" := UserFactory.VString "555-0199"]> ∅)) tt
       = Some (minimal, tt)
       /\ minimal !! "phoneNumber" = None.
Proof.
  split; [exact fixed_env_well_behaved|].
  destruct (generateMinimalUser_has_no_phoneNumber UserFactory.fixed_env
              (Some (<["phoneNumber" := UserFactory.VString "555-0199"]> ∅))
              tt fixed_env_well_behaved)
    as (user & minimal & [] & _ & Hrun & Hno & _).
  exists minimal. split; [exact Hrun | exact Hno].
Defined.

Lemma split_chars_members (chars x : string) :
  In x (UserFactory.split_chars chars) -> String.length x = 1.
Proof.
  induction chars as [|c chars IH]; cbn [UserFactory.split_chars In];
    [tauto|].
  intros [<-|Hx]; [reflexivity | now apply IH].
Qed.

Lemma fill_length (E : UserFactory.Env) (chars : string) :
  UserFactory.well_behaved E ->
  chars <> EmptyString ->
  forall (n : nat) (password : string) (s : UserFactory.state E),
    exists filled s',
      UserFactory.fill E chars n password s = Some (filled, s')
      /\ String.length filled = String.length password + n.
Proof.
  intros H Hc. induction n as [|n IH]; intros password s.
  - exists password, s. split; [reflexivity | lia].
  - cbn [UserFactory.fill].
    destruct (UserFactory.arrayElement_member E H
                (UserFactory.split_chars chars) s) as (x & s1 & Hx & Hin).
    { destruct chars; [contradiction | discriminate]. }
    rewrite Hx. destruct (IH (password ++ x) s1) as (filled & s' & Hf & Hl).
    exists filled, s'. split; [exact Hf|].
    rewrite Hl, append_length, (split_chars_members _ _ Hin). lia.
Qed.

(** X22: [generatePassword(length, ...)] with at least one class of
    characters asked for returns a password of [length] characters, or of
    as many characters as there are classes asked for when [length] is
    smaller than that: one character of each class is put in before the
    length is looked at. *)
Theorem generatePassword_length (E : UserFactory.Env) (length : Z)
    (includeUppercase includeLowercase includeNumbers includeSpecial : bool)
    (s : UserFactory.state E) :
  UserFactory.well_behaved E ->
  0 < UserFactory.classes includeUppercase includeLowercase includeNumbers
        includeSpecial ->
  exists password s',
    UserFactory.generatePassword E length includeUppercase includeLowercase
      includeNumbers includeSpecial s = Some (password, s')
    /\ String.length password
       = Nat.max (Z.to_nat length)
           (UserFactory.classes includeUppercase includeLowercase
              includeNumbers includeSpecial).
Proof.
  intros H Hk. unfold UserFactory.generatePassword.
  pose proof (UserFactory.alpha_upper E H 1 s ltac:(lia)) as [U _].
  destruct (UserFactory.string_alpha E 1 true s) as [u s1]. cbn [fst] in U.
  set (st1 := if includeUppercase then s1 else s).
  pose proof (UserFactory.alpha_lower E H 1 st1 ltac:(lia)) as [L _].
  destruct (UserFactory.string_alpha E 1 false st1) as [l s2] eqn:El.
  cbn [fst] in L.
  set (st2 := if includeLowercase then s2 else st1).
  pose proof (UserFactory.numeric_digits E H 1 st2 ltac:(lia)) as [D _].
  destruct (UserFactory.string_numeric E 1 st2) as [d s3] eqn:Ed.
  cbn [fst] in D.
  set (st3 := if includeNumbers then s3 else st2).
  destruct (UserFactory.arrayElement_member E H
              ["@"; "#"; "$"; "%"; "&"; "*"; "!"] st3 ltac:(discriminate))
    as (x & s4 & Hx & Hin).
  assert (X : String.length x = 1)
    by (cbn [In] in Hin; intuition subst; reflexivity).
  assert (Finish : forall chars password st,
            chars <> EmptyString ->
            String.length password
            = UserFactory.classes includeUppercase includeLowercase
                includeNumbers includeSpecial ->
            exists pw s',
              match
                UserFactory.fill E chars
                  (Z.to_nat (length - Z.of_nat (String.length password)))
                  password st
              with
              | Some (password0, s'0) =>
                  Some (UserFactory.shuffle E password0 s'0)
              | None => None
              end = Some (pw, s')
              /\ String.length pw
                 = Nat.max (Z.to_nat length)
                     (UserFactory.classes includeUppercase includeLowercase
                        includeNumbers includeSpecial)).
  { intros chars password st Hc Hp.
    destruct (fill_length E chars H Hc
                (Z.to_nat (length - Z.of_nat (String.length password)))
                password st) as (filled & s' & Hf & Hl).
    rewrite Hf.
    exists (fst (UserFactory.shuffle E filled s')),
      (snd (UserFactory.shuffle E filled s')).
    split; [now destruct (UserFactory.shuffle E filled s')|].
    rewrite shuffle_length by exact H. rewrite Hl, Hp. lia. }
  unfold UserFactory.classes in *.
  destruct includeUppercase, includeLowercase, includeNumbers,
    includeSpecial; cbn [Nat.b2n] in *; try lia;
    subst st1 st2 st3; cbn beta iota zeta;
    rewrite ?El; cbn beta iota zeta; rewrite ?Ed; cbn beta iota zeta;
    rewrite ?Hx; cbn beta iota zeta;
    apply Finish; try discriminate;
    rewrite ?append_length; cbn [String.length]; lia.
Qed.

Lemma generatePassword_length_witness :
  UserFactory.well_behaved UserFactory.fixed_env
  /\ 0 < UserFactory.classes true true true true
  /\ UserFactory.generatePassword UserFactory.fixed_env 2 true true true true
       tt = Some ("Qq7@", tt)
  /\ String.length "Qq7@" = Nat.max (Z.to_nat 2) 4.
Proof.
  split; [exact fixed_env_well_behaved|]. split; [cbn; lia|].
  split; [reflexivity|].
  destruct (generatePassword_length UserFactory.fixed_env 2 true true true
              true tt fixed_env_well_behaved ltac:(cbn; lia))
    as (password & s' & Hrun & Hlen).
  change (UserFactory.generatePassword UserFactory.fixed_env 2 true true true
            true tt) with (Some ("Qq7@", tt)) in Hrun.
  injection Hrun as <- _. exact Hlen.
Defined.
